(** * WZ Icon Viewer: the index store and the list/preview logic

    A shallow embedding of [wz_icon_viewer_gui.py]:

    - the values [json.load] produces ([json]), with Python's membership,
      subscript and [dict.get] on them, exceptions made explicit ([result]);
    - the data-access helpers [load_icon_db], [get_types], [_is_nested_item],
      [get_categories], [get_ids];
    - the part of [IconViewerApp] that decides what the id list shows
      ([sort_key], the sort, the filter, [refresh_id_list], the handlers
      [_load_json] and [_on_type_changed]) and the subsample factor
      computed in [_on_id_selected].

    Strings are Rocq [string]s: a character is a code point in
    U+0000 .. U+00FF and Python's character tables ([str.isdigit],
    [str.isspace], the decimal digits [int] accepts) are the Unicode ones
    restricted to that range.  Python compares strings code point by code
    point, which is [String.compare]. *)

From Stdlib Require Import List String Ascii Bool ZArith NArith Lia.
From Stdlib Require Import Permutation Sorted QArith Qround Qminmax.
Import ListNotations.

Local Open Scope Z_scope.
Local Open Scope string_scope.
Local Open Scope list_scope.

(* ------------------------------------------------------------------ *)
(** ** Exceptions *)

Inductive exn : Type :=
| TypeError
| KeyError
| AttributeError
| ValueError (msg : string)
| JSONDecodeError
| OSError.

Inductive result (A : Type) : Type :=
| Ok (a : A)
| Raise (e : exn).

Arguments Ok {A} a.
Arguments Raise {A} e.

Definition bind {A B : Type} (m : result A) (k : A -> result B) : result B :=
  match m with
  | Ok a => k a
  | Raise e => Raise e
  end.

Notation "x <- m ;; k" := (bind m (fun x => k))
  (at level 61, m at next level, right associativity).

Fixpoint mapM {A B : Type} (f : A -> result B) (l : list A) : result (list B) :=
  match l with
  | [] => Ok []
  | x :: t => y <- f x ;; ys <- mapM f t ;; Ok (y :: ys)
  end.

(* ------------------------------------------------------------------ *)
(** ** Python strings *)

Module PyStr.

Definition code (c : ascii) : N := N_of_ascii c.

(** [c.isdigit()]: the decimal digits and, below U+0100, the superscript
    digits U+00B2, U+00B3 and U+00B9. *)
Definition is_digit_char (c : ascii) : bool :=
  ((48 <=? code c) && (code c <=? 57))%N
  || (code c =? 178)%N || (code c =? 179)%N || (code c =? 185)%N.

(** The characters [int] reads as decimal digits (category Nd). *)
Definition is_decimal_char (c : ascii) : bool :=
  ((48 <=? code c) && (code c <=? 57))%N.

(** [c.isspace()] below U+0100. *)
Definition is_space_char (c : ascii) : bool :=
  ((9 <=? code c) && (code c <=? 13))%N
  || ((28 <=? code c) && (code c <=? 32))%N
  || (code c =? 133)%N || (code c =? 160)%N.

Fixpoint all_chars (p : ascii -> bool) (s : string) : bool :=
  match s with
  | EmptyString => true
  | String c t => p c && all_chars p t
  end.

Definition nonempty (s : string) : bool :=
  match s with
  | EmptyString => false
  | String _ _ => true
  end.

(** [s.isdigit()]: at least one character, and every character a digit. *)
Definition isdigit (s : string) : bool := nonempty s && all_chars is_digit_char s.

Definition isdecimal (s : string) : bool := nonempty s && all_chars is_decimal_char s.

Definition digit_value (c : ascii) : Z := Z.of_N (code c) - 48.

Fixpoint decimal_value_acc (acc : Z) (s : string) : Z :=
  match s with
  | EmptyString => acc
  | String c t => decimal_value_acc (10 * acc + digit_value c) t
  end.

(** The number of digits [int] converts at most, by default. *)
Definition max_str_digits : Z := 4300.

(** The length of the run of decimal digits a string starts with. *)
Fixpoint decimal_run (s : string) : Z :=
  match s with
  | EmptyString => 0
  | String c t => if is_decimal_char c then 1 + decimal_run t else 0
  end.

Definition invalid_literal : exn :=
  ValueError "invalid literal for int() with base 10".

Definition exceeds_limit : exn :=
  ValueError "Exceeds the limit (4300 digits) for integer string conversion".

(** [int(s)] on the strings the viewer passes to it.  [sort_key] calls
    [int] only on a string for which [isdigit] holds; such a string has no
    sign, blank or underscore.  [int] reads the decimal digits the string
    starts with: more than [max_str_digits] of them raise [ValueError];
    otherwise the string is accepted exactly when every character is a
    decimal digit, and [ValueError] is raised when one is not.  The
    messages are cut before the part that quotes the argument. *)
Definition int (s : string) : result Z :=
  if (max_str_digits <? decimal_run s)%Z then Raise exceeds_limit
  else if isdecimal s then Ok (decimal_value_acc 0 s)
  else Raise invalid_literal.

(** The strings [int] converts. *)
Definition int_accepts (s : string) : bool :=
  isdecimal s && (decimal_run s <=? max_str_digits)%Z.

Fixpoint lstrip (s : string) : string :=
  match s with
  | EmptyString => EmptyString
  | String c t => if is_space_char c then lstrip t else s
  end.

Fixpoint rstrip (s : string) : string :=
  match s with
  | EmptyString => EmptyString
  | String c t =>
      match rstrip t with
      | EmptyString => if is_space_char c then EmptyString else String c EmptyString
      | r => String c r
      end
  end.

(** [s.strip()] *)
Definition strip (s : string) : string := rstrip (lstrip s).

(** [sub in s] on strings *)
Fixpoint contains (sub s : string) : bool :=
  String.prefix sub s ||
  match s with
  | EmptyString => false
  | String _ t => contains sub t
  end.

(** [a < b] and [a <= b] on strings *)
Definition lt (a b : string) : bool := String.ltb a b.
Definition le (a b : string) : bool := String.leb a b.

End PyStr.

(* ------------------------------------------------------------------ *)
(** ** Python's stable sort *)

Section StableSort.

Context {A : Type}.
Variable ltb : A -> A -> bool.

(** [list.sort] and [sorted] compare with [<] only and are stable.  For a
    strict weak order the result of a stable sort is unique, so the
    insertion sort below stands for it: an element is put in front of the
    first element that is not smaller than it, equal elements stay behind. *)
Fixpoint insert_stable (x : A) (l : list A) : list A :=
  match l with
  | [] => [x]
  | y :: t => if ltb y x then y :: insert_stable x t else x :: y :: t
  end.

Definition sort_stable (l : list A) : list A := fold_right insert_stable [] l.

End StableSort.

(** A list is ascending for [ltb] when no element is smaller than one
    before it. *)
Definition ascending {A : Type} (ltb : A -> A -> bool) (l : list A) : Prop :=
  StronglySorted (fun a b => ltb b a = false) l.

(** [sorted(strs)] *)
Definition sorted_str (l : list string) : list string := sort_stable PyStr.lt l.

(* ------------------------------------------------------------------ *)
(** ** JSON values as [json.load] returns them *)

(** A [dict] keeps its keys in insertion order and each key once; it is an
    association list, and [wf_dict] says that the keys are distinct.  The
    keys of a JSON object are strings. *)
#[local] Set Warnings "-register-all".

Inductive json : Type :=
| JNull
| JBool (b : bool)
| JInt (z : Z)
| JFloat (bits : Z)
| JStr (s : string)
| JList (l : list json)
| JDict (kvs : list (string * json)).

Definition dict : Type := list (string * json).

Definition isinstance_dict (v : json) : bool :=
  match v with
  | JDict _ => true
  | _ => false
  end.

Fixpoint dict_lookup (k : string) (d : dict) : option json :=
  match d with
  | [] => None
  | (k', v) :: t => if String.eqb k k' then Some v else dict_lookup k t
  end.

Definition dict_keys (d : dict) : list string := map fst d.
Definition dict_values (d : dict) : list json := map snd d.

(** [d[k] = v]: an existing key keeps its place, a new key goes last. *)
Fixpoint dict_set (d : dict) (k : string) (v : json) : dict :=
  match d with
  | [] => [(k, v)]
  | (k', v') :: t => if String.eqb k k' then (k', v) :: t else (k', v') :: dict_set t k v
  end.

Definition wf_dict (d : dict) : Prop := NoDup (dict_keys d).

(** [str(k)] on a key, which is a string already. *)
Definition str (k : string) : string := k.

(** [{str(k): v for k, v in d.items()}] *)
Definition str_keyed (d : dict) : dict :=
  fold_left (fun acc kv => dict_set acc (str (fst kv)) (snd kv)) d [].

Definition json_eq_str (v : json) (s : string) : bool :=
  match v with
  | JStr s' => String.eqb s' s
  | _ => false
  end.

(** [k in c] for a string [k] *)
Definition py_in (k : string) (c : json) : result bool :=
  match c with
  | JDict d => Ok (match dict_lookup k d with Some _ => true | None => false end)
  | JList l => Ok (existsb (fun v => json_eq_str v k) l)
  | JStr s => Ok (PyStr.contains k s)
  | JNull | JBool _ | JInt _ | JFloat _ => Raise TypeError
  end.

(** [c[k]] for a string [k] *)
Definition py_getitem (c : json) (k : string) : result json :=
  match c with
  | JDict d =>
      match dict_lookup k d with
      | Some v => Ok v
      | None => Raise KeyError
      end
  | _ => Raise TypeError
  end.

(** [c.get(k, default)] *)
Definition py_get (c : json) (k : string) (default : json) : result json :=
  match c with
  | JDict d =>
      match dict_lookup k d with
      | Some v => Ok v
      | None => Ok default
      end
  | _ => Raise AttributeError
  end.

(** [c.keys()], [c.values()] and [c.items()] *)
Definition py_keys (c : json) : result (list string) :=
  match c with
  | JDict d => Ok (dict_keys d)
  | _ => Raise AttributeError
  end.

Definition py_values (c : json) : result (list json) :=
  match c with
  | JDict d => Ok (dict_values d)
  | _ => Raise AttributeError
  end.

Definition py_items (c : json) : result dict :=
  match c with
  | JDict d => Ok d
  | _ => Raise AttributeError
  end.

(* ------------------------------------------------------------------ *)
(** ** Core logic helpers (JSON + data access) *)

(** What opening and parsing the file at a path comes to: [open] fails,
    [json.load] rejects the text, or a value is parsed. *)
Inductive document : Type :=
| Unreadable
| Malformed
| Parsed (data : json).

Definition format_error : exn :=
  ValueError "icon_db.json must contain a top-level JSON object".

Definition load_icon_db (doc : document) : result json :=
  match doc with
  | Unreadable => Raise OSError
  | Malformed => Raise JSONDecodeError
  | Parsed data =>
      if negb (isinstance_dict data) then Raise format_error
      else Ok data
  end.

Definition get_types (icon_db : json) : list string :=
  match icon_db with
  | JDict d => sorted_str (map str (dict_keys d))
  | _ => []
  end.

Definition _is_nested_item (icon_db : json) (type_name : string) : result bool :=
  present <- py_in type_name icon_db ;;
  if negb present then Ok false
  else
    data <- py_getitem icon_db type_name ;;
    if negb (isinstance_dict data) then Ok false
    else
      vs <- py_values data ;;
      Ok (existsb isinstance_dict vs).

Definition get_categories (icon_db : json) (type_name : string) : result (list string) :=
  nested <- _is_nested_item icon_db type_name ;;
  if negb nested then Ok []
  else
    data <- py_get icon_db type_name (JDict []) ;;
    ks <- py_keys data ;;
    Ok (sorted_str (map str ks)).

(** [not category] for an optional string: [None] and the empty string are falsy. *)
Definition falsy (category : option string) : bool :=
  match category with
  | None => true
  | Some c => negb (PyStr.nonempty c)
  end.

Definition get_ids (icon_db : json) (type_name : string) (category : option string)
  : result dict :=
  present <- py_in type_name icon_db ;;
  if negb present then Ok []
  else
    data <- py_getitem icon_db type_name ;;
    nested <- (if String.eqb type_name "Item" then _is_nested_item icon_db "Item"
               else Ok false) ;;
    if nested then
      if falsy category then Ok []
      else
        match category with
        | Some c =>
            sub <- py_get data c JNull ;;
            match sub with
            | JDict items => Ok (str_keyed items)
            | _ => Ok []
            end
        | None => Ok []
        end
    else
      match data with
      | JDict items => Ok (str_keyed items)
      | _ => Ok []
      end.

(* ------------------------------------------------------------------ *)
(** ** The id list of [IconViewerApp] *)

(** The sort key [(0, int(s))] or [(1, s)].  Tuples compare by their first
    components and, when these are equal, by their second ones; the tag
    fixes the type of the second component, so an integer is never compared
    with a string. *)
Inductive key : Type :=
| KNum (n : Z)
| KStr (s : string).

Definition key_lt (a b : key) : bool :=
  match a, b with
  | KNum x, KNum y => (x <? y)%Z
  | KNum _, KStr _ => true
  | KStr _, KNum _ => false
  | KStr x, KStr y => PyStr.lt x y
  end.

Definition sort_key (s : string) : result key :=
  if PyStr.isdigit s then (n <- PyStr.int s ;; Ok (KNum n)) else Ok (KStr s).

(** The key of an id whose digits are all decimal. *)
Definition key_of (s : string) : key :=
  if PyStr.isdigit s then KNum (PyStr.decimal_value_acc 0 s) else KStr s.

(** The integer an all-decimal id stands for, and the order by it. *)
Definition int_value (s : string) : Z := PyStr.decimal_value_acc 0 s.
Definition int_lt (a b : string) : bool := (int_value a <? int_value b)%Z.

Definition non_numeric (s : string) : bool := negb (PyStr.isdigit s).

(** The order [sort_key] induces on ids. *)
Definition id_lt (a b : string) : bool := key_lt (key_of a) (key_of b).

(** [ids.sort(key=sort_key)]: the keys are computed first, one per element
    and in order (an exception of [sort_key] leaves the sort), then the
    elements are sorted stably by their keys. *)
Definition sort_ids (ids : list string) : result (list string) :=
  keyed <- mapM (fun s => k <- sort_key s ;; Ok (k, s)) ids ;;
  Ok (map snd (sort_stable (fun a b => key_lt (fst a) (fst b)) keyed)).

(** [filter_text = self.var_filter.get().strip()] and
    [if filter_text: ids = [i for i in ids if filter_text in i]] *)
Definition filter_ids (var_filter : string) (ids : list string) : list string :=
  let filter_text := PyStr.strip var_filter in
  if PyStr.nonempty filter_text then filter (fun i => PyStr.contains filter_text i) ids
  else ids.

(** The fields of the application that the id list depends on; labels,
    the preview image and the status line are left out. *)
Record app : Type := mkApp {
  icon_db : json;
  var_type : string;
  var_category : string;
  category_visible : bool;
  var_filter : string;
  current_entries : dict;
  list_ids : list string
}.

Definition _clear_ids (a : app) : app :=
  mkApp (icon_db a) (var_type a) (var_category a) (category_visible a)
        (var_filter a) [] [].

Definition set_entries (a : app) (entries : dict) : app :=
  mkApp (icon_db a) (var_type a) (var_category a) (category_visible a)
        (var_filter a) entries (list_ids a).

Definition set_list_ids (a : app) (ids : list string) : app :=
  mkApp (icon_db a) (var_type a) (var_category a) (category_visible a)
        (var_filter a) (current_entries a) ids.

Definition refresh_id_list (a0 : app) : result app :=
  let a := _clear_ids a0 in
  let t := var_type a in
  if negb (PyStr.nonempty t) then Ok a
  else
    let cat :=
      if String.eqb t "Item" && category_visible a
      then (if PyStr.nonempty (var_category a) then Some (var_category a) else None)
      else None in
    entries <- get_ids (icon_db a) t cat ;;
    let a := set_entries a entries in
    match entries with
    | [] => Ok a
    | _ :: _ =>
        ids <- sort_ids (dict_keys entries) ;;
        Ok (set_list_ids a (filter_ids (var_filter a) ids))
    end.

(** [_show_category] and [_hide_category] map and unmap the category
    frame, and [_category_visible] reads that back; the main window is
    taken to be on screen. *)
Definition _show_category (a : app) : app :=
  mkApp (icon_db a) (var_type a) (var_category a) true
        (var_filter a) (current_entries a) (list_ids a).

Definition _hide_category (a : app) : app :=
  mkApp (icon_db a) (var_type a) (var_category a) false
        (var_filter a) (current_entries a) (list_ids a).

Definition set_category (a : app) (c : string) : app :=
  mkApp (icon_db a) (var_type a) c (category_visible a)
        (var_filter a) (current_entries a) (list_ids a).

Definition set_type (a : app) (t : string) : app :=
  mkApp (icon_db a) t (var_category a) (category_visible a)
        (var_filter a) (current_entries a) (list_ids a).

Definition set_icon_db (a : app) (db : json) : app :=
  mkApp db (var_type a) (var_category a) (category_visible a)
        (var_filter a) (current_entries a) (list_ids a).

Definition _on_type_changed (a : app) : result app :=
  let t := var_type a in
  if negb (PyStr.nonempty t) then Ok (_clear_ids (_hide_category a))
  else
    a <- (if String.eqb t "Item" then
            cats <- get_categories (icon_db a) "Item" ;;
            match cats with
            | c0 :: _ =>
                let a := if existsb (String.eqb (var_category a)) cats then a
                         else set_category a c0 in
                Ok (_show_category a)
            | [] => Ok (set_category (_hide_category a) EmptyString)
            end
          else Ok (set_category (_hide_category a) EmptyString)) ;;
    refresh_id_list a.

Definition _on_category_changed (a : app) : result app := refresh_id_list a.

(** [_load_json]: a failure of [load_icon_db] is reported in a dialog and
    leaves the application as it was. *)
Definition _load_json (a : app) (doc : document) : result app :=
  match load_icon_db doc with
  | Raise _ => Ok a
  | Ok db =>
      let a := set_icon_db a db in
      match get_types db with
      | t0 :: _ => _on_type_changed (set_type a t0)
      | [] => Ok (_clear_ids (_hide_category (set_type a EmptyString)))
      end
  end.

(** The application as [__init__] leaves it. *)
Definition initial_app : app :=
  mkApp (JDict []) EmptyString EmptyString false EmptyString [] [].

(* ------------------------------------------------------------------ *)
(** ** The subsample factor of [_on_id_selected] *)

Definition max_w : Z := 512.
Definition max_h : Z := 512.

(** [w / max_w] is a float division.  The divisor is a power of two, so the
    quotient of an image dimension is exact and a rational stands for it. *)
Definition true_div (a b : Z) : Q := (inject_Z a / inject_Z b)%Q.

(** [max(a, b)]: [b] when [b > a], else [a]. *)
Definition py_max (a b : Q) : Q := if negb (Qle_bool b a) then b else a.

(** [int(x)] on a float: rounds toward zero. *)
Definition int_of_float (x : Q) : Z :=
  if Qle_bool 0 x then Qfloor x else Qceiling x.

(** [None] when the image is shown as it is, [Some scale] when
    [img.subsample(scale, scale)] is called. *)
Definition subsample_factor (w h : Z) : option Z :=
  if (w >? max_w)%Z || (h >? max_h)%Z then
    let scale := py_max (true_div w max_w) (true_div h max_h) in
    let scale := int_of_float scale in
    let scale := if (scale <? 1)%Z then 1 else scale in
    Some scale
  else None.

(** The factor as a floor and as a ceiling of the larger quotient. *)
Definition floor_factor (w h : Z) : Z :=
  Qfloor (Qmax (Qmake w 512) (Qmake h 512)).

Definition ceil_factor (w h : Z) : Z :=
  Z.max 1 (Qceiling (Qmax (Qmake w 512) (Qmake h 512))).

(* ------------------------------------------------------------------ *)
(** ** Sample indexes *)

(** [{"Item": {"Cash": {"1002186": "cash/1002186.png"}},
      "Mob": {"100100": "mob/100100.png"}}] *)
Definition example_db : json :=
  JDict [("Item", JDict [("Cash", JDict [("1002186", JStr "cash/1002186.png")])]);
         ("Mob", JDict [("100100", JStr "mob/100100.png")])].

(** [{"Mob": {"A": {"1": "a/1.png"}}}]: a type with categories that is not
    called Item. *)
Definition nested_mob_db : json :=
  JDict [("Mob", JDict [("A", JDict [("1", JStr "a/1.png")])])].

(** The one-character string U+00B2 (superscript two). *)
Definition superscript_two : string := String (ascii_of_N 178) EmptyString.

(** The id made of 4301 digits 1. *)
Definition long_id : string :=
  string_of_list_ascii (repeat "1"%char (N.to_nat 4301)).

(** [{"Mob": {"²": "mob/sq.png"}}] *)
Definition superscript_db : json :=
  JDict [("Mob", JDict [(superscript_two, JStr "mob/sq.png")])].

(** The application once [db] is loaded, with type [t] selected. *)
Definition app_with (db : json) (t category : string) (visible : bool)
           (text : string) : app :=
  mkApp db t category visible text [] [].

(* ================================================================== *)
(** * Properties *)

(** ** Dictionaries *)

Lemma dict_lookup_None_not_key (k : string) (d : dict) :
  dict_lookup k d = None <-> ~ In k (dict_keys d).
Proof.
  induction d as [|[k' v] t IH]; simpl.
  - split; [intros _ [] | reflexivity].
  - destruct (String.eqb_spec k k') as [->|Hne].
    + split; [discriminate | intros H; exfalso; apply H; now left].
    + rewrite IH. split.
      * intros H [E|E]; [now apply Hne | now apply H].
      * intros H E. apply H. now right.
Qed.

Lemma dict_set_fresh (d : dict) (k : string) (v : json) :
  ~ In k (dict_keys d) -> dict_set d k v = d ++ [(k, v)].
Proof.
  induction d as [|[k' v'] t IH]; simpl; intros H.
  - reflexivity.
  - destruct (String.eqb_spec k k') as [->|Hne].
    + exfalso. apply H. now left.
    + rewrite IH; [reflexivity|]. intros E. apply H. now right.
Qed.

Lemma str_keyed_acc (d acc : dict) :
  NoDup (dict_keys (acc ++ d)) ->
  fold_left (fun a kv => dict_set a (str (fst kv)) (snd kv)) d acc = acc ++ d.
Proof.
  revert acc. induction d as [|[k v] t IH]; intros acc H; simpl.
  - now rewrite app_nil_r.
  - unfold dict_keys in H. rewrite map_app in H. simpl in H.
    pose proof (NoDup_remove_2 _ _ _ H) as Hk.
    rewrite dict_set_fresh.
    + rewrite IH.
      * now rewrite <- app_assoc.
      * unfold dict_keys. rewrite <- app_assoc, map_app. exact H.
    + unfold str. simpl. intros E. apply Hk. apply in_or_app. now left.
Qed.

(** Re-keying a dictionary by [str] gives the dictionary back. *)
Lemma str_keyed_wf (d : dict) : wf_dict d -> str_keyed d = d.
Proof.
  intros H. unfold str_keyed. now rewrite str_keyed_acc.
Qed.

Lemma map_str_keys (d : dict) : map (fun kv => (str (fst kv), snd kv)) d = d.
Proof.
  induction d as [|[k v] t IH]; simpl; [reflexivity|]. now rewrite IH.
Qed.

Lemma falsy_spec (category : option string) :
  falsy category = true <-> category = None \/ category = Some EmptyString.
Proof.
  destruct category as [[|c s]|]; simpl; split; intros H; auto; try discriminate.
  - destruct H as [H|H]; discriminate.
Qed.

(** ** [_is_nested_item] and [get_ids] on a dictionary, case by case *)

Lemma is_nested_absent (kvs : dict) (t : string) :
  dict_lookup t kvs = None -> _is_nested_item (JDict kvs) t = Ok false.
Proof.
  intros H. unfold _is_nested_item. simpl. now rewrite H.
Qed.

Lemma is_nested_present (kvs : dict) (t : string) (v : json) :
  dict_lookup t kvs = Some v ->
  _is_nested_item (JDict kvs) t =
  Ok (match v with JDict data => existsb isinstance_dict (dict_values data) | _ => false end).
Proof.
  intros H. unfold _is_nested_item. simpl. rewrite H. simpl.
  destruct v; reflexivity.
Qed.

Lemma is_nested_true_inv (db : json) (t : string) :
  _is_nested_item db t = Ok true ->
  exists kvs data, db = JDict kvs /\ dict_lookup t kvs = Some (JDict data) /\
                   existsb isinstance_dict (dict_values data) = true.
Proof.
  destruct db as [| | | |s|l|kvs]; unfold _is_nested_item; simpl; try discriminate.
  - destruct (PyStr.contains t s); simpl; discriminate.
  - destruct (existsb _ l); simpl; discriminate.
  - destruct (dict_lookup t kvs) as [v|] eqn:E; simpl; [|discriminate].
    destruct v; simpl; try discriminate.
    intros H. injection H as H. eauto.
Qed.

Lemma get_ids_absent (kvs : dict) (t : string) (category : option string) :
  dict_lookup t kvs = None -> get_ids (JDict kvs) t category = Ok [].
Proof.
  intros H. unfold get_ids. simpl. now rewrite H.
Qed.

Lemma get_ids_flat (kvs : dict) (t : string) (category : option string) (v : json) :
  dict_lookup t kvs = Some v ->
  (t = "Item" -> _is_nested_item (JDict kvs) "Item" = Ok false) ->
  get_ids (JDict kvs) t category =
  Ok (match v with JDict items => str_keyed items | _ => [] end).
Proof.
  intros H Hn. unfold get_ids. simpl. rewrite H. simpl.
  destruct (String.eqb_spec t "Item") as [E|E].
  - rewrite (Hn E). simpl. destruct v; reflexivity.
  - simpl. destruct v; reflexivity.
Qed.

Lemma get_ids_nested_item (kvs data : dict) (c : string) :
  dict_lookup "Item" kvs = Some (JDict data) ->
  existsb isinstance_dict (dict_values data) = true ->
  c <> EmptyString ->
  get_ids (JDict kvs) "Item" (Some c) =
  Ok (match dict_lookup c data with Some (JDict items) => str_keyed items | _ => [] end).
Proof.
  intros H Hex Hc. unfold get_ids. simpl. rewrite H. simpl.
  rewrite (is_nested_present _ _ _ H). simpl. rewrite Hex.
  destruct c as [|a s]; [congruence|]. simpl.
  destruct (dict_lookup (String a s) data) as [v|]; simpl; [|reflexivity].
  destruct v; reflexivity.
Qed.

Lemma is_nested_total (kvs : dict) (t : string) :
  exists b, _is_nested_item (JDict kvs) t = Ok b.
Proof.
  destruct (dict_lookup t kvs) as [v|] eqn:E.
  - rewrite (is_nested_present _ _ _ E). eauto.
  - rewrite (is_nested_absent _ _ E). eauto.
Qed.

Lemma get_ids_total (kvs : dict) (t : string) (category : option string) :
  exists d, get_ids (JDict kvs) t category = Ok d.
Proof.
  unfold get_ids. simpl.
  destruct (dict_lookup t kvs) as [v|] eqn:E; simpl; [|eauto].
  destruct (String.eqb_spec t "Item") as [->|Hne].
  - rewrite (is_nested_present _ _ _ E). simpl.
    destruct v; simpl; eauto.
    destruct (existsb isinstance_dict (dict_values kvs0)); [|eauto].
    destruct (falsy category); [eauto|].
    destruct category as [c|]; [|eauto]. simpl.
    destruct (dict_lookup c kvs0) as [[]|]; simpl; eauto.
  - simpl. destruct v; eauto.
Qed.

Lemma get_ids_not_dict (kvs : dict) (t : string) (category : option string) (v : json) :
  dict_lookup t kvs = Some v -> isinstance_dict v = false ->
  get_ids (JDict kvs) t category = Ok [].
Proof.
  intros E Hv. rewrite (get_ids_flat _ _ _ _ E).
  - destruct v; try reflexivity. discriminate.
  - intros ->. rewrite (is_nested_present _ _ _ E). destruct v; try reflexivity. discriminate.
Qed.

(** ** The stable sort *)

Section StableSortFacts.

Context {A : Type}.
Variable ltb : A -> A -> bool.

Lemma insert_stable_perm (x : A) (l : list A) :
  Permutation (insert_stable ltb x l) (x :: l).
Proof.
  induction l as [|y t IH]; simpl.
  - apply Permutation_refl.
  - destruct (ltb y x).
    + eapply perm_trans; [apply perm_skip, IH | apply perm_swap].
    + apply Permutation_refl.
Qed.

Lemma sort_stable_perm (l : list A) : Permutation (sort_stable ltb l) l.
Proof.
  induction l as [|x t IH]; simpl.
  - constructor.
  - eapply perm_trans; [apply insert_stable_perm | now apply perm_skip].
Qed.

Lemma sort_stable_In (l : list A) (x : A) : In x (sort_stable ltb l) <-> In x l.
Proof.
  split; apply Permutation_in; [|apply Permutation_sym]; apply sort_stable_perm.
Qed.

Hypothesis ltb_asym : forall a b, ltb a b = true -> ltb b a = false.
Hypothesis ltb_ntrans :
  forall a b c, ltb b a = false -> ltb c b = false -> ltb c a = false.

Lemma insert_stable_ascending (x : A) (l : list A) :
  ascending ltb l -> ascending ltb (insert_stable ltb x l).
Proof.
  unfold ascending. induction 1 as [|y t Hs IH Hy]; simpl.
  - constructor; constructor.
  - destruct (ltb y x) eqn:E.
    + constructor; [exact IH|].
      rewrite Forall_forall in *. intros z Hz.
      apply (Permutation_in _ (insert_stable_perm x t)) in Hz.
      destruct Hz as [<-|Hz]; [now apply ltb_asym | now apply Hy].
    + constructor; [now constructor|].
      constructor; [exact E|].
      rewrite Forall_forall in *. intros z Hz.
      apply ltb_ntrans with y; [exact E | now apply Hy].
Qed.

Lemma sort_stable_ascending (l : list A) : ascending ltb (sort_stable ltb l).
Proof.
  induction l as [|x t IH]; simpl.
  - constructor.
  - now apply insert_stable_ascending.
Qed.

End StableSortFacts.

(** Sorting the images under [f] is sorting by the order pulled back
    along [f]. *)
Lemma sort_stable_map {A B : Type} (f : A -> B)
      (ltA : A -> A -> bool) (ltB : B -> B -> bool) (l : list A) :
  (forall a b, In a l -> In b l -> ltA a b = ltB (f a) (f b)) ->
  map f (sort_stable ltA l) = sort_stable ltB (map f l).
Proof.
  induction l as [|x t IH]; simpl; intros H; [reflexivity|].
  rewrite <- IH by (intros; apply H; now right).
  assert (Hin : forall y, In y (sort_stable ltA t) -> In y (x :: t))
    by (intros y Hy; right; now apply sort_stable_In in Hy).
  revert Hin. generalize (sort_stable ltA t) as s.
  induction s as [|y s IHs]; simpl; intros Hin; [reflexivity|].
  rewrite <- (H y x); [|apply Hin; now left|now left].
  destruct (ltA y x); simpl; [|reflexivity].
  rewrite IHs; [reflexivity|]. intros z Hz. apply Hin. now right.
Qed.

(** ** The order on strings *)

Lemma string_compare_le_trans (a b c : string) :
  String.compare a b <> Gt -> String.compare b c <> Gt -> String.compare a c <> Gt.
Proof.
  revert b c. induction a as [|x a IH]; intros [|y b] [|z c]; simpl;
    try congruence.
  unfold Ascii.compare.
  destruct (N.compare_spec (N_of_ascii x) (N_of_ascii y)) as [E1|E1|E1];
    destruct (N.compare_spec (N_of_ascii y) (N_of_ascii z)) as [E2|E2|E2];
    destruct (N.compare_spec (N_of_ascii x) (N_of_ascii z)) as [E3|E3|E3];
    try congruence; try lia.
  apply IH.
Qed.

Lemma str_lt_false_iff (a b : string) :
  PyStr.lt b a = false <-> String.compare a b <> Gt.
Proof.
  unfold PyStr.lt, String.ltb. rewrite (String.compare_antisym a b).
  destruct (String.compare b a); simpl; split; congruence.
Qed.

Lemma str_lt_le (a b : string) : PyStr.lt b a = false <-> PyStr.le a b = true.
Proof.
  rewrite str_lt_false_iff. unfold PyStr.le, String.leb.
  destruct (String.compare a b); split; congruence.
Qed.

Lemma str_lt_asym (a b : string) : PyStr.lt a b = true -> PyStr.lt b a = false.
Proof.
  unfold PyStr.lt, String.ltb. rewrite (String.compare_antisym a b).
  destruct (String.compare b a); simpl; congruence.
Qed.

Lemma str_lt_ntrans (a b c : string) :
  PyStr.lt b a = false -> PyStr.lt c b = false -> PyStr.lt c a = false.
Proof.
  rewrite !str_lt_false_iff. apply string_compare_le_trans.
Qed.

Lemma sorted_str_le (l : list string) :
  StronglySorted (fun a b => PyStr.le a b = true) (sorted_str l).
Proof.
  pose proof (sort_stable_ascending PyStr.lt str_lt_asym str_lt_ntrans l) as H.
  unfold ascending in H. unfold sorted_str.
  induction H as [|x t Hs IH Hx]; constructor; [exact IH|].
  rewrite Forall_forall in *. intros y Hy. apply str_lt_le. now apply Hx.
Qed.

(** ** Sorting ids *)

Lemma decimal_run_all (s : string) :
  PyStr.all_chars PyStr.is_decimal_char s = true ->
  PyStr.decimal_run s = Z.of_nat (String.length s).
Proof.
  induction s as [|c s IH]; [reflexivity|].
  cbn [PyStr.all_chars PyStr.decimal_run String.length].
  intros H. apply andb_true_iff in H. destruct H as [Hc Hs].
  rewrite Hc, (IH Hs). lia.
Qed.

(** [int] converts the strings of decimal digits that have at most 4300
    characters. *)
Lemma int_accepts_spec (s : string) :
  PyStr.int_accepts s = true <->
  PyStr.isdecimal s = true /\ Z.of_nat (String.length s) <= 4300.
Proof.
  unfold PyStr.int_accepts, PyStr.max_str_digits.
  rewrite andb_true_iff, Z.leb_le. split; intros [D L]; (split; [exact D|]).
  - rewrite <- decimal_run_all; [exact L|].
    unfold PyStr.isdecimal in D. now apply andb_true_iff in D.
  - rewrite decimal_run_all; [exact L|].
    unfold PyStr.isdecimal in D. now apply andb_true_iff in D.
Qed.

Lemma int_accepts_false (s : string) :
  PyStr.int_accepts s = false <->
  PyStr.isdecimal s = false \/ 4300 < Z.of_nat (String.length s).
Proof.
  destruct (PyStr.int_accepts s) eqn:A.
  - apply int_accepts_spec in A. destruct A as [D L].
    split; [discriminate|]. intros [H|H]; [congruence | lia].
  - split; [|reflexivity]. intros _.
    destruct (PyStr.isdecimal s) eqn:D; [|now left]. right.
    destruct (Z_lt_le_dec 4300 (Z.of_nat (String.length s))) as [L|L]; [exact L|].
    assert (PyStr.int_accepts s = true) by (apply int_accepts_spec; now split).
    congruence.
Qed.

Lemma int_accepted (s : string) :
  PyStr.int_accepts s = true -> PyStr.int s = Ok (PyStr.decimal_value_acc 0 s).
Proof.
  unfold PyStr.int_accepts, PyStr.int. intros H.
  apply andb_true_iff in H. destruct H as [D L]. apply Z.leb_le in L.
  destruct (Z.ltb_spec PyStr.max_str_digits (PyStr.decimal_run s)); [lia|].
  now rewrite D.
Qed.

Lemma int_rejected (s : string) :
  PyStr.int_accepts s = false ->
  PyStr.int s = Raise PyStr.invalid_literal \/
  PyStr.int s = Raise PyStr.exceeds_limit.
Proof.
  unfold PyStr.int_accepts, PyStr.int. intros H.
  destruct (Z.ltb_spec PyStr.max_str_digits (PyStr.decimal_run s)) as [L|L];
    [now right|].
  destruct (PyStr.isdecimal s); [|now left].
  simpl in H. apply Z.leb_gt in H. lia.
Qed.

Lemma sort_key_decimal (s : string) :
  (PyStr.isdigit s = true -> PyStr.int_accepts s = true) ->
  sort_key s = Ok (key_of s).
Proof.
  intros H. unfold sort_key, key_of.
  destruct (PyStr.isdigit s); [|reflexivity].
  now rewrite int_accepted by now apply H.
Qed.

Lemma mapM_sort_key (ids : list string) :
  (forall s, In s ids -> PyStr.isdigit s = true -> PyStr.int_accepts s = true) ->
  mapM (fun s => k <- sort_key s ;; Ok (k, s)) ids =
  Ok (map (fun s => (key_of s, s)) ids).
Proof.
  induction ids as [|x t IH]; simpl; intros H; [reflexivity|].
  rewrite sort_key_decimal by (apply H; now left). simpl.
  rewrite IH by (intros; apply H; [now right | assumption]).
  reflexivity.
Qed.

Lemma sort_ids_by_key (ids : list string) :
  (forall s, In s ids -> PyStr.isdigit s = true -> PyStr.int_accepts s = true) ->
  sort_ids ids = Ok (sort_stable id_lt ids).
Proof.
  intros H. unfold sort_ids. rewrite (mapM_sort_key _ H). simpl. f_equal.
  rewrite (sort_stable_map snd _ id_lt).
  - rewrite map_map. simpl. now rewrite map_id.
  - intros a b Ha Hb. apply in_map_iff in Ha, Hb.
    destruct Ha as (sa & <- & _), Hb as (sb & <- & _). reflexivity.
Qed.

Lemma insert_numeric (x : string) (nums others : list string) :
  PyStr.isdigit x = true ->
  Forall (fun s => PyStr.isdigit s = true) nums ->
  Forall (fun s => non_numeric s = true) others ->
  insert_stable id_lt x (nums ++ others) = insert_stable int_lt x nums ++ others.
Proof.
  intros Hx Hn Ho. induction Hn as [|y n Hy Hn IH]; simpl.
  - destruct Ho as [|y o Hy Ho]; simpl; [reflexivity|].
    unfold id_lt, key_of, non_numeric in *. rewrite Hx.
    destruct (PyStr.isdigit y); [discriminate|]. reflexivity.
  - assert (E : id_lt y x = int_lt y x)
      by (unfold id_lt, key_of; rewrite Hx, Hy; reflexivity).
    rewrite E. destruct (int_lt y x); simpl; [now rewrite IH | reflexivity].
Qed.

Lemma insert_non_numeric (x : string) (nums others : list string) :
  non_numeric x = true ->
  Forall (fun s => PyStr.isdigit s = true) nums ->
  Forall (fun s => non_numeric s = true) others ->
  insert_stable id_lt x (nums ++ others) = nums ++ insert_stable PyStr.lt x others.
Proof.
  intros Hx Hn Ho. unfold non_numeric in Hx. apply negb_true_iff in Hx.
  induction Hn as [|y n Hy Hn IH]; simpl.
  - induction Ho as [|y o Hy Ho IH]; simpl; [reflexivity|].
    assert (E : id_lt y x = PyStr.lt y x).
    { unfold id_lt, key_of, non_numeric in *. rewrite Hx.
      destruct (PyStr.isdigit y); [discriminate | reflexivity]. }
    rewrite E. destruct (PyStr.lt y x); [now rewrite IH | reflexivity].
  - assert (E : id_lt y x = true)
      by (unfold id_lt, key_of; rewrite Hx, Hy; reflexivity).
    rewrite E. now rewrite IH.
Qed.

Lemma Forall_sort_filter (ltb : string -> string -> bool) (p : string -> bool)
      (l : list string) :
  Forall (fun s => p s = true) (sort_stable ltb (filter p l)).
Proof.
  apply Forall_forall. intros s Hs.
  apply sort_stable_In in Hs. now apply filter_In in Hs.
Qed.

(** The numeric ids come first, in a stable sort by value; the others
    follow, in a stable sort by code points. *)
Lemma sort_stable_id_lt (ids : list string) :
  sort_stable id_lt ids =
  sort_stable int_lt (filter PyStr.isdigit ids) ++ sorted_str (filter non_numeric ids).
Proof.
  induction ids as [|x t IH]; simpl; [reflexivity|].
  rewrite IH. unfold non_numeric at 2.
  destruct (PyStr.isdigit x) eqn:E; simpl.
  - apply insert_numeric; [exact E | apply Forall_sort_filter..].
  - apply insert_non_numeric; [|apply Forall_sort_filter..].
    unfold non_numeric. now rewrite E.
Qed.

Lemma int_lt_asym (a b : string) : int_lt a b = true -> int_lt b a = false.
Proof. unfold int_lt. lia. Qed.

Lemma int_lt_ntrans (a b c : string) :
  int_lt b a = false -> int_lt c b = false -> int_lt c a = false.
Proof. unfold int_lt. lia. Qed.

(** On ids that [int] converts whenever they pass [isdigit] (all their
    characters decimal digits, at most 4300 of them) the list is sorted as
    announced: numeric ids first, ascending by value, then the other ids
    in lexicographic order. *)
Theorem sort_ids_decimal (ids : list string) :
  (forall s, In s ids -> PyStr.isdigit s = true ->
             PyStr.isdecimal s = true /\ Z.of_nat (String.length s) <= 4300) ->
  exists nums others,
    sort_ids ids = Ok (nums ++ others) /\
    Permutation nums (filter PyStr.isdigit ids) /\
    Permutation others (filter non_numeric ids) /\
    StronglySorted (fun a b => (int_value a <= int_value b)%Z) nums /\
    StronglySorted (fun a b => PyStr.le a b = true) others.
Proof.
  intros H.
  exists (sort_stable int_lt (filter PyStr.isdigit ids)),
         (sorted_str (filter non_numeric ids)).
  repeat split.
  - rewrite sort_ids_by_key, sort_stable_id_lt; [reflexivity|].
    intros s Hs Hd. apply int_accepts_spec. now apply H.
  - apply sort_stable_perm.
  - apply sort_stable_perm.
  - pose proof (sort_stable_ascending int_lt int_lt_asym int_lt_ntrans
                  (filter PyStr.isdigit ids)) as Hs.
    unfold ascending in Hs.
    induction Hs as [|x t Hs IH Hx]; constructor; [exact IH|].
    rewrite Forall_forall in *. intros y Hy. specialize (Hx y Hy).
    unfold int_lt in Hx. lia.
  - apply sorted_str_le.
Qed.

(** ** Substrings and the filter *)

Lemma prefix_app (sub s : string) :
  String.prefix sub s = true <-> exists b, s = (sub ++ b)%string.
Proof.
  revert s. induction sub as [|c sub IH]; intros s.
  - destruct s; simpl; split; eauto.
  - destruct s as [|d s]; simpl.
    + split; [discriminate | intros [b Hb]; discriminate].
    + destruct (ascii_dec c d) as [->|Hne].
      * rewrite IH. split; intros [b Hb]; exists b; congruence.
      * split; [discriminate | intros [b Hb]; congruence].
Qed.

(** [contains sub s] holds exactly when [sub] occurs in [s]. *)
Lemma contains_spec (sub s : string) :
  PyStr.contains sub s = true <-> exists a b, s = (a ++ sub ++ b)%string.
Proof.
  induction s as [|c s IH].
  - cbn [PyStr.contains]. rewrite orb_false_r, prefix_app. split.
    + intros [b Hb]. now exists EmptyString, b.
    + intros (a & b & H). destruct a; simpl in H; [eauto | discriminate].
  - cbn [PyStr.contains]. rewrite orb_true_iff, prefix_app, IH. split.
    + intros [[b Hb]|(a & b & H)].
      * now exists EmptyString, b.
      * exists (String c a), b. simpl. now rewrite H.
    + intros (a & b & H). destruct a as [|d a]; simpl in H.
      * left. eauto.
      * right. exists a, b. congruence.
Qed.

Lemma contains_empty (s : string) : PyStr.contains EmptyString s = true.
Proof. destruct s; reflexivity. Qed.

Lemma filter_all {A : Type} (p : A -> bool) (l : list A) :
  (forall x, p x = true) -> filter p l = l.
Proof.
  intros H. induction l as [|x t IH]; simpl; [reflexivity|].
  now rewrite H, IH.
Qed.

Lemma filter_ids_strip (var_filter : string) (ids : list string) :
  filter_ids var_filter ids = filter (PyStr.contains (PyStr.strip var_filter)) ids.
Proof.
  unfold filter_ids. destruct (PyStr.strip var_filter) as [|c r] eqn:E.
  - simpl. symmetry. apply filter_all, contains_empty.
  - reflexivity.
Qed.

(** What [refresh_id_list] leaves in the list box: the keys of the
    entries, sorted, then filtered. *)
Lemma refresh_id_list_shows (a : app) (entries : dict) (sorted : list string) :
  PyStr.nonempty (var_type a) = true ->
  get_ids (icon_db a) (var_type a)
          (if String.eqb (var_type a) "Item" && category_visible a
           then (if PyStr.nonempty (var_category a) then Some (var_category a) else None)
           else None) = Ok entries ->
  entries <> [] ->
  sort_ids (dict_keys entries) = Ok sorted ->
  exists a', refresh_id_list a = Ok a' /\
             current_entries a' = entries /\
             list_ids a' = filter_ids (var_filter a) sorted.
Proof.
  intros Ht Hg Hne Hs. unfold refresh_id_list. simpl. rewrite Ht. simpl.
  rewrite Hg. simpl. destruct entries as [|e es]; [congruence|].
  rewrite Hs. simpl. eexists. repeat split.
Qed.

(** ** The subsample factor *)

Lemma true_div_512 (a : Z) : true_div a 512 = Qmake (a * 1) 512.
Proof. reflexivity. Qed.

Lemma py_max_512 (a b : Z) :
  py_max (true_div a 512) (true_div b 512) = true_div (Z.max a b) 512.
Proof.
  rewrite !true_div_512. unfold py_max, Qle_bool. cbn [Qnum Qden].
  destruct (Z.leb_spec (b * 1 * 512) (a * 1 * 512)) as [L|L]; simpl.
  - replace (Z.max a b) with a by lia. reflexivity.
  - replace (Z.max a b) with b by lia. reflexivity.
Qed.

Lemma int_of_float_512 (a : Z) : 0 <= a -> int_of_float (true_div a 512) = a / 512.
Proof.
  intros Ha. rewrite true_div_512. unfold int_of_float, Qle_bool. cbn [Qnum Qden].
  destruct (Z.leb_spec (0 * 512) (a * 1 * 1)) as [L|L]; [|lia].
  unfold Qfloor. now rewrite Z.mul_1_r.
Qed.

Lemma subsample_factor_div (w h : Z) :
  w > 512 \/ h > 512 ->
  subsample_factor w h = Some (Z.max (w / 512) (h / 512)).
Proof.
  intros H. unfold subsample_factor, max_w, max_h.
  replace ((w >? 512) || (h >? 512))%bool with true
    by (symmetry; apply orb_true_iff; lia).
  rewrite py_max_512, int_of_float_512 by lia. f_equal.
  assert (E : Z.max w h / 512 = Z.max (w / 512) (h / 512)).
  { destruct (Z.max_spec w h) as [[L ->]|[L ->]];
      [assert (w / 512 <= h / 512) | assert (h / 512 <= w / 512)];
      try (apply Z.div_le_mono; lia); lia. }
  rewrite E.
  destruct (Z.ltb_spec (Z.max (w / 512) (h / 512)) 1) as [B|B]; [|reflexivity].
  exfalso. rewrite <- E in B.
  assert (1 <= Z.max w h / 512) by (apply Z.div_le_lower_bound; lia). lia.
Qed.

Lemma subsample_factor_small (w h : Z) :
  w <= 512 -> h <= 512 -> subsample_factor w h = None.
Proof.
  intros Hw Hh. unfold subsample_factor, max_w, max_h.
  replace ((w >? 512) || (h >? 512))%bool with false; [reflexivity|].
  symmetry. apply orb_false_iff. lia.
Qed.

Lemma Qfloor_Qmax (x y : Q) : Qfloor (Qmax x y) = Z.max (Qfloor x) (Qfloor y).
Proof.
  destruct (Q.max_spec x y) as [[Hlt E]|[Hle E]]; rewrite E.
  - apply Qlt_le_weak, Qfloor_resp_le in Hlt. lia.
  - apply Qfloor_resp_le in Hle. lia.
Qed.

Lemma floor_factor_div (w h : Z) : floor_factor w h = Z.max (w / 512) (h / 512).
Proof. unfold floor_factor. now rewrite Qfloor_Qmax. Qed.

(* ================================================================== *)
(** * The claims *)

Ltac wf_dict_tac :=
  unfold wf_dict; simpl;
  repeat (constructor; [simpl; intuition congruence|]); constructor.

(** ** Index store *)

(** C6. [load_icon_db] fails with the format error exactly when a value is
    parsed and that value is not a dictionary; a parsed dictionary is
    returned as it is. *)
Theorem load_icon_db_format_error (doc : document) :
  (load_icon_db doc = Raise format_error <->
   exists data, doc = Parsed data /\ isinstance_dict data = false) /\
  (forall data, doc = Parsed data -> isinstance_dict data = true ->
                load_icon_db doc = Ok data).
Proof.
  split.
  - destruct doc as [| |data]; simpl.
    + split; [discriminate | intros (d & H & _); discriminate].
    + split; [discriminate | intros (d & H & _); discriminate].
    + destruct (isinstance_dict data) eqn:E; simpl.
      * split; [discriminate|]. intros (d & H & Hd). congruence.
      * split; [eauto | reflexivity].
  - intros data -> H. simpl. now rewrite H.
Qed.

Lemma load_icon_db_format_error_witness :
  load_icon_db (Parsed example_db) = Ok example_db /\
  load_icon_db (Parsed (JList [])) = Raise format_error.
Proof.
  split.
  - apply (proj2 (load_icon_db_format_error (Parsed example_db)) example_db);
      reflexivity.
  - apply (proj1 (load_icon_db_format_error (Parsed (JList [])))).
    exists (JList []). split; reflexivity.
Defined.

(** C7. [get_types] returns the top-level keys, each once per key of the
    index, in ascending code-point order; upper-case letters come before
    lower-case ones. *)
Theorem get_types_sorted_keys (kvs : dict) :
  Permutation (get_types (JDict kvs)) (dict_keys kvs) /\
  StronglySorted (fun a b => PyStr.le a b = true) (get_types (JDict kvs)) /\
  get_types (JDict [("b", JNull); ("a", JNull); ("Z", JNull)]) = ["Z"; "a"; "b"].
Proof.
  simpl get_types at 1 2. split; [|split].
  - unfold sorted_str. rewrite map_id. apply sort_stable_perm.
  - apply sorted_str_le.
  - reflexivity.
Qed.

(** C5. On an index, [_is_nested_item] answers [True] exactly when the
    type is present, its value is a dictionary and one of the values of
    that dictionary is a dictionary, and [False] otherwise; when none of
    the values under a type is a dictionary, [_is_nested_item] is [False]
    and [get_categories] is empty. *)
Theorem is_nested_item_iff (kvs : dict) (type_name : string) :
  (_is_nested_item (JDict kvs) type_name = Ok true <->
   exists data, dict_lookup type_name kvs = Some (JDict data) /\
                exists v, In v (dict_values data) /\ isinstance_dict v = true) /\
  (_is_nested_item (JDict kvs) type_name = Ok true \/
   _is_nested_item (JDict kvs) type_name = Ok false) /\
  (forall v, dict_lookup type_name kvs = Some v ->
     (forall data x, v = JDict data -> In x (dict_values data) ->
                     isinstance_dict x = false) ->
     _is_nested_item (JDict kvs) type_name = Ok false /\
     get_categories (JDict kvs) type_name = Ok []).
Proof.
  split; [|split].
  - split.
    + intros H. apply is_nested_true_inv in H.
      destruct H as (kvs' & data & E & Hl & Hex). injection E as <-.
      exists data. split; [exact Hl|]. now apply existsb_exists.
    + intros (data & Hl & Hex). rewrite (is_nested_present _ _ _ Hl).
      f_equal. now apply existsb_exists.
  - destruct (is_nested_total kvs type_name) as [[|] H]; auto.
  - intros v Hl Hall.
    assert (Hn : _is_nested_item (JDict kvs) type_name = Ok false).
    { rewrite (is_nested_present _ _ _ Hl). destruct v; try reflexivity.
      f_equal. destruct (existsb isinstance_dict (dict_values kvs0)) eqn:E;
        [|reflexivity].
      apply existsb_exists in E. destruct E as (x & Hx & Hd).
      rewrite (Hall _ x eq_refl Hx) in Hd. discriminate. }
    split; [exact Hn|]. unfold get_categories. now rewrite Hn.
Qed.

Lemma is_nested_item_iff_witness :
  _is_nested_item example_db "Mob" = Ok false /\
  get_categories example_db "Mob" = Ok [] /\
  _is_nested_item example_db "Item" = Ok true.
Proof.
  pose proof (is_nested_item_iff
                [("Item", JDict [("Cash", JDict [("1002186", JStr "cash/1002186.png")])]);
                 ("Mob", JDict [("100100", JStr "mob/100100.png")])]) as H.
  split; [|split].
  - apply (proj2 (proj2 (H "Mob")) (JDict [("100100", JStr "mob/100100.png")])).
    + reflexivity.
    + intros data x E Hx. injection E as <-. simpl in Hx.
      destruct Hx as [<-|[]]. reflexivity.
  - apply (proj2 (proj2 (H "Mob")) (JDict [("100100", JStr "mob/100100.png")])).
    + reflexivity.
    + intros data x E Hx. injection E as <-. simpl in Hx.
      destruct Hx as [<-|[]]. reflexivity.
  - apply (proj1 (H "Item")).
    exists [("Cash", JDict [("1002186", JStr "cash/1002186.png")])].
    split; [reflexivity|].
    exists (JDict [("1002186", JStr "cash/1002186.png")]).
    split; [now left | reflexivity].
Defined.

(** C1, as the code has it.  Only the type named Item is looked up by
    category: when it is nested, [get_ids] with a non-empty category
    returns the mapping of that category, and the empty mapping when the
    category is absent or its value is not a dictionary.  Every other
    type, and Item when it is flat, yields the mapping of the type with its
    keys passed through [str].  A type absent from the index yields the
    empty mapping. *)
Theorem get_ids_spec (kvs : dict) (type_name : string) (category : option string) :
  (forall data c,
     dict_lookup "Item" kvs = Some (JDict data) ->
     existsb isinstance_dict (dict_values data) = true ->
     c <> EmptyString ->
     (forall sub, dict_lookup c data = Some (JDict sub) -> wf_dict sub ->
                  get_ids (JDict kvs) "Item" (Some c) = Ok sub) /\
     (dict_lookup c data = None -> get_ids (JDict kvs) "Item" (Some c) = Ok []) /\
     (forall v, dict_lookup c data = Some v -> isinstance_dict v = false ->
                get_ids (JDict kvs) "Item" (Some c) = Ok [])) /\
  (forall data,
     dict_lookup type_name kvs = Some (JDict data) ->
     type_name <> "Item" \/ existsb isinstance_dict (dict_values data) = false ->
     wf_dict data ->
     get_ids (JDict kvs) type_name category =
     Ok (map (fun kv => (str (fst kv), snd kv)) data)) /\
  (dict_lookup type_name kvs = None ->
   get_ids (JDict kvs) type_name category = Ok []).
Proof.
  split; [|split].
  - intros data c Hl Hex Hc.
    rewrite (get_ids_nested_item _ _ _ Hl Hex Hc). repeat split.
    + intros sub Hs Hwf. rewrite Hs. now rewrite str_keyed_wf.
    + intros Hs. now rewrite Hs.
    + intros v Hs Hv. rewrite Hs. destruct v; try reflexivity. discriminate.
  - intros data Hl Hflat Hwf. rewrite map_str_keys.
    rewrite (get_ids_flat _ _ _ _ Hl).
    + now rewrite str_keyed_wf.
    + intros ->. rewrite (is_nested_present _ _ _ Hl).
      destruct Hflat as [Hne|Hex]; [congruence | now rewrite Hex].
  - apply get_ids_absent.
Qed.

Lemma get_ids_spec_witness :
  get_ids example_db "Item" (Some "Cash") = Ok [("1002186", JStr "cash/1002186.png")] /\
  get_ids example_db "Item" (Some "Etc") = Ok [] /\
  get_ids example_db "Mob" None = Ok [("100100", JStr "mob/100100.png")] /\
  get_ids example_db "Pet" None = Ok [].
Proof.
  pose proof (get_ids_spec
                [("Item", JDict [("Cash", JDict [("1002186", JStr "cash/1002186.png")])]);
                 ("Mob", JDict [("100100", JStr "mob/100100.png")])]) as H.
  split; [|split; [|split]].
  - destruct (H "Item" None) as [H1 _].
    destruct (H1 [("Cash", JDict [("1002186", JStr "cash/1002186.png")])] "Cash")
      as [H2 _]; [reflexivity | reflexivity | discriminate |].
    apply H2; [reflexivity | wf_dict_tac].
  - destruct (H "Item" None) as [H1 _].
    destruct (H1 [("Cash", JDict [("1002186", JStr "cash/1002186.png")])] "Etc")
      as (_ & H2 & _); [reflexivity | reflexivity | discriminate |].
    apply H2. reflexivity.
  - destruct (H "Mob" None) as (_ & H1 & _).
    apply (H1 [("100100", JStr "mob/100100.png")]);
      [reflexivity | left; discriminate | wf_dict_tac].
  - destruct (H "Pet" None) as (_ & _ & H1). apply H1. reflexivity.
Defined.

(** C1 as it is written fails: a nested type that is not called Item is
    not looked up by category, its own mapping comes back. *)
Lemma get_ids_nested_other_type :
  _is_nested_item nested_mob_db "Mob" = Ok true /\
  get_ids nested_mob_db "Mob" (Some "A") = Ok [("A", JDict [("1", JStr "a/1.png")])] /\
  get_ids nested_mob_db "Mob" (Some "A") <> Ok [("1", JStr "a/1.png")].
Proof.
  split; [reflexivity|]. split; [reflexivity|]. discriminate.
Qed.

(** C8. The sample index: its types, the categories of Item, the entries
    of Item/Cash and of the flat type Mob, through the helpers and through
    the application: loading the index selects Item with category Cash,
    selecting Mob hides the category and lists the ids of Mob. *)
Theorem example_db_queries :
  load_icon_db (Parsed example_db) = Ok example_db /\
  get_types example_db = ["Item"; "Mob"] /\
  get_categories example_db "Item" = Ok ["Cash"] /\
  get_categories example_db "Mob" = Ok [] /\
  get_ids example_db "Item" (Some "Cash") = Ok [("1002186", JStr "cash/1002186.png")] /\
  get_ids example_db "Mob" None = Ok [("100100", JStr "mob/100100.png")] /\
  refresh_id_list (app_with example_db "Item" "Cash" true EmptyString) =
    Ok (mkApp example_db "Item" "Cash" true EmptyString
              [("1002186", JStr "cash/1002186.png")] ["1002186"]) /\
  refresh_id_list (app_with example_db "Mob" EmptyString false EmptyString) =
    Ok (mkApp example_db "Mob" EmptyString false EmptyString
              [("100100", JStr "mob/100100.png")] ["100100"]) /\
  _load_json initial_app (Parsed example_db) =
    Ok (mkApp example_db "Item" "Cash" true EmptyString
              [("1002186", JStr "cash/1002186.png")] ["1002186"]) /\
  _on_type_changed (app_with example_db "Mob" "Cash" true EmptyString) =
    Ok (mkApp example_db "Mob" EmptyString false EmptyString
              [("100100", JStr "mob/100100.png")] ["100100"]).
Proof.
  repeat split; reflexivity.
Qed.

(** C10. When Item is nested, [get_ids] for Item without a category, or
    with the empty string as category, returns the empty mapping. *)
Theorem get_ids_no_category (db : json) (category : option string) :
  _is_nested_item db "Item" = Ok true ->
  category = None \/ category = Some EmptyString ->
  get_ids db "Item" category = Ok [].
Proof.
  intros Hn Hc. apply falsy_spec in Hc.
  destruct (is_nested_true_inv _ _ Hn) as (kvs & data & -> & Hl & Hex).
  unfold get_ids. simpl py_in. rewrite Hl. simpl. rewrite Hl. simpl.
  rewrite Hn. simpl. now rewrite Hc.
Qed.

Lemma get_ids_no_category_witness :
  _is_nested_item example_db "Item" = Ok true /\
  get_ids example_db "Item" None = Ok [] /\
  get_ids example_db "Item" (Some EmptyString) = Ok [].
Proof.
  split; [reflexivity|]. split.
  - apply (get_ids_no_category example_db None); [reflexivity | now left].
  - apply (get_ids_no_category example_db (Some EmptyString));
      [reflexivity | now right].
Defined.

(** C9, as the code has it.  [get_types] answers the empty list on a value
    that is not a dictionary.  On a dictionary [_is_nested_item] and
    [get_ids] always return: [_is_nested_item] answers [False] and
    [get_ids] the empty mapping when the type is absent or its value is
    not a dictionary. *)
Theorem queries_total_on_dict :
  (forall db, isinstance_dict db = false -> get_types db = []) /\
  (forall kvs t, exists b, _is_nested_item (JDict kvs) t = Ok b) /\
  (forall kvs t c, exists d, get_ids (JDict kvs) t c = Ok d) /\
  (forall kvs t c,
     dict_lookup t kvs = None \/
     (exists v, dict_lookup t kvs = Some v /\ isinstance_dict v = false) ->
     _is_nested_item (JDict kvs) t = Ok false /\
     get_ids (JDict kvs) t c = Ok []).
Proof.
  split; [|split; [|split]].
  - intros db H. destruct db; try reflexivity. discriminate.
  - apply is_nested_total.
  - apply get_ids_total.
  - intros kvs t c [Hl|(v & Hl & Hv)].
    + split; [now apply is_nested_absent | now apply get_ids_absent].
    + split.
      * rewrite (is_nested_present _ _ _ Hl). destruct v; try reflexivity.
        discriminate.
      * now apply get_ids_not_dict with v.
Qed.

Lemma queries_total_on_dict_witness :
  get_types (JList [JStr "Mob"]) = [] /\
  _is_nested_item (JDict [("Mob", JInt 7)]) "Mob" = Ok false /\
  get_ids (JDict [("Mob", JInt 7)]) "Mob" None = Ok [] /\
  get_ids (JDict [("Mob", JInt 7)]) "Pet" (Some "A") = Ok [].
Proof.
  destruct queries_total_on_dict as (H1 & _ & _ & H4).
  split; [|split; [|split]].
  - apply H1. reflexivity.
  - apply (H4 [("Mob", JInt 7)] "Mob" None). right.
    exists (JInt 7). split; reflexivity.
  - apply (H4 [("Mob", JInt 7)] "Mob" None). right.
    exists (JInt 7). split; reflexivity.
  - apply (H4 [("Mob", JInt 7)] "Pet" (Some "A")). left. reflexivity.
Defined.

(** C9 as it is written fails: on a database that is not a dictionary
    [_is_nested_item] and [get_ids] raise, on a number at the membership
    test and on a list that holds the type name at the subscript. *)
Lemma queries_raise_on_non_dict :
  _is_nested_item (JInt 5) "Mob" = Raise TypeError /\
  get_ids (JInt 5) "Mob" None = Raise TypeError /\
  _is_nested_item (JList [JStr "Mob"]) "Mob" = Raise TypeError /\
  get_ids (JList [JStr "Mob"]) "Mob" None = Raise TypeError.
Proof.
  repeat split; reflexivity.
Qed.

(** ** The id list *)

(** The ids of the specification's example, sorted. *)
Example sort_ids_example :
  sort_ids ["10"; "2"; "abc"; "1"] = Ok ["1"; "2"; "10"; "abc"].
Proof. reflexivity. Qed.

(** C3 at an id the sort cannot order.  The id U+00B2 passes [isdigit], so
    [sort_key] hands it to [int], which raises [ValueError]: the sort of
    the id list, and with it [refresh_id_list] and the loading of an index
    whose first type holds that id, ends in that exception instead of
    presenting the ids. *)
Theorem sort_ids_superscript_raises :
  PyStr.isdigit superscript_two = true /\
  sort_key superscript_two =
    Raise (ValueError "invalid literal for int() with base 10") /\
  sort_ids ["10"; superscript_two; "abc"; "1"] =
    Raise (ValueError "invalid literal for int() with base 10") /\
  get_ids superscript_db "Mob" None = Ok [(superscript_two, JStr "mob/sq.png")] /\
  refresh_id_list (app_with superscript_db "Mob" EmptyString false EmptyString) =
    Raise (ValueError "invalid literal for int() with base 10") /\
  _load_json initial_app (Parsed superscript_db) =
    Raise (ValueError "invalid literal for int() with base 10").
Proof.
  repeat split; reflexivity.
Qed.

(** C4, as the code has it.  The filter text is the content of the filter
    entry with the blanks at its ends stripped; the list shown is the
    sorted list restricted to the ids in which that text occurs, case
    sensitively and in the sorted order.  [refresh_id_list] sorts the keys
    of the entries first and filters afterwards. *)
Theorem filter_ids_spec (text : string) (ids : list string) :
  filter_ids text ids = filter (PyStr.contains (PyStr.strip text)) ids /\
  (forall i, In i (filter_ids text ids) <->
             In i ids /\ exists a b, i = (a ++ PyStr.strip text ++ b)%string) /\
  (forall a entries sorted,
     PyStr.nonempty (var_type a) = true ->
     get_ids (icon_db a) (var_type a)
             (if String.eqb (var_type a) "Item" && category_visible a
              then (if PyStr.nonempty (var_category a)
                    then Some (var_category a) else None)
              else None) = Ok entries ->
     entries <> [] ->
     sort_ids (dict_keys entries) = Ok sorted ->
     exists a', refresh_id_list a = Ok a' /\
                list_ids a' = filter (PyStr.contains (PyStr.strip (var_filter a))) sorted) /\
  filter_ids "0" ["100"; "200"; "Abc"] = ["100"; "200"] /\
  filter_ids "a" ["100"; "200"; "Abc"] = [].
Proof.
  split; [|split; [|split; [|split]]].
  - apply filter_ids_strip.
  - intros i. rewrite filter_ids_strip, filter_In, contains_spec. reflexivity.
  - intros a entries sorted Ht Hg Hne Hs.
    destruct (refresh_id_list_shows a entries sorted Ht Hg Hne Hs)
      as (a' & Hr & _ & Hl).
    exists a'. split; [exact Hr|]. now rewrite Hl, filter_ids_strip.
  - reflexivity.
  - reflexivity.
Qed.

Lemma filter_ids_spec_witness :
  exists a', refresh_id_list (app_with example_db "Mob" EmptyString false " 100 ") = Ok a' /\
             list_ids a' = filter (PyStr.contains "100") ["100100"].
Proof.
  destruct (filter_ids_spec EmptyString []) as (_ & _ & H & _).
  apply (H (app_with example_db "Mob" EmptyString false " 100 ")
           [("100100", JStr "mob/100100.png")] ["100100"]).
  - reflexivity.
  - reflexivity.
  - discriminate.
  - reflexivity.
Defined.

(** C4 as it is written fails: a filter entry that holds one blank shows
    every id, though the blank occurs in none of them. *)
Lemma filter_ids_blank :
  filter_ids " " ["100"; "200"; "Abc"] = ["100"; "200"; "Abc"] /\
  filter (PyStr.contains " ") ["100"; "200"; "Abc"] = [] /\
  refresh_id_list (app_with example_db "Mob" EmptyString false " ") =
    Ok (mkApp example_db "Mob" EmptyString false " "
              [("100100", JStr "mob/100100.png")] ["100100"]).
Proof.
  repeat split; reflexivity.
Qed.

(** ** The preview *)

(** What the code computes.  When a dimension exceeds 512 the image is
    subsampled by the larger of the two quotients by 512 rounded down, a
    factor that is at least 1; otherwise the image is left as it is.  For
    1024 x 2048 the factor is 4. *)
Theorem subsample_factor_floor (w h : Z) :
  (w > 512 \/ h > 512 ->
   subsample_factor w h = Some (floor_factor w h) /\
   floor_factor w h = Z.max (w / 512) (h / 512) /\
   1 <= floor_factor w h) /\
  (w <= 512 -> h <= 512 -> subsample_factor w h = None) /\
  (forall k, subsample_factor w h = Some k -> 1 <= k) /\
  subsample_factor 1024 2048 = Some 4.
Proof.
  assert (Hbig : w > 512 \/ h > 512 -> 1 <= Z.max (w / 512) (h / 512)).
  { intros [H|H];
      [assert (1 <= w / 512) | assert (1 <= h / 512)];
      try (apply Z.div_le_lower_bound; lia); lia. }
  split; [|split; [|split]].
  - intros H. rewrite floor_factor_div, subsample_factor_div by exact H.
    repeat split. now apply Hbig.
  - apply subsample_factor_small.
  - intros k Hk.
    destruct (Z_le_gt_dec w 512) as [Hw|Hw]; [destruct (Z_le_gt_dec h 512) as [Hh|Hh]|].
    + rewrite subsample_factor_small in Hk by assumption. discriminate.
    + rewrite subsample_factor_div in Hk by (now right).
      injection Hk as <-. apply Hbig. now right.
    + rewrite subsample_factor_div in Hk by (now left).
      injection Hk as <-. apply Hbig. now left.
  - reflexivity.
Qed.

Lemma subsample_factor_floor_witness :
  subsample_factor 600 1300 = Some (floor_factor 600 1300) /\
  floor_factor 600 1300 = 2 /\
  subsample_factor 512 300 = None.
Proof.
  destruct (subsample_factor_floor 600 1300) as (H1 & _).
  destruct H1 as (H1 & _ & _); [right; reflexivity|].
  destruct (subsample_factor_floor 512 300) as (_ & H2 & _).
  split; [exact H1|]. split; [reflexivity|].
  apply H2; discriminate.
Defined.

(** C2 at a size the code leaves unshrunk.  A 600 x 600 image exceeds
    the bound of 512 and takes the shrinking branch, but the truncation by
    [int] gives the factor 1, so the image is shown as it is; the ceiling
    of the quotient, the factor of the claim, is 2. *)
Lemma subsample_factor_not_ceiling :
  subsample_factor 600 600 = Some 1 /\
  ceil_factor 600 600 = 2 /\
  subsample_factor 600 600 <> Some (ceil_factor 600 600).
Proof.
  split; [reflexivity|]. split; [reflexivity|]. discriminate.
Qed.

(* ================================================================== *)
(** * Further properties of the index store *)

Lemma dict_lookup_Some_key (k : string) (d : dict) (v : json) :
  dict_lookup k d = Some v -> In k (dict_keys d).
Proof.
  intros H. destruct (in_dec string_dec k (dict_keys d)) as [Hin|Hin]; [exact Hin|].
  apply dict_lookup_None_not_key in Hin. congruence.
Qed.

(** Two lists in ascending order with the same elements are the same
    list. *)
Lemma sorted_perm_eq (l1 l2 : list string) :
  StronglySorted (fun a b => PyStr.le a b = true) l1 ->
  StronglySorted (fun a b => PyStr.le a b = true) l2 ->
  Permutation l1 l2 -> l1 = l2.
Proof.
  intros H1. revert l2. induction H1 as [|x t Ht IH Hx]; intros l2 H2 P.
  - symmetry. now apply Permutation_nil.
  - destruct H2 as [|y u Hu Hy].
    + apply Permutation_sym, Permutation_nil in P. discriminate.
    + assert (E : x = y).
      { rewrite Forall_forall in Hx, Hy.
        assert (Hxin : In x (y :: u))
          by (apply (Permutation_in _ P); now left).
        assert (Hyin : In y (x :: t))
          by (apply (Permutation_in _ (Permutation_sym P)); now left).
        destruct Hxin as [E|Hxin]; [now symmetry|].
        destruct Hyin as [E|Hyin]; [exact E|].
        apply String.leb_antisym; [now apply Hx | now apply Hy]. }
      subst y. f_equal. apply IH; [exact Hu|].
      now apply Permutation_cons_inv in P.
Qed.

Lemma sorted_str_perm_eq (l1 l2 : list string) :
  Permutation l1 l2 -> sorted_str l1 = sorted_str l2.
Proof.
  intros P. apply sorted_perm_eq; try apply sorted_str_le.
  unfold sorted_str.
  eapply perm_trans; [apply sort_stable_perm|].
  eapply perm_trans; [exact P|]. apply Permutation_sym, sort_stable_perm.
Qed.

(** The list of types does not depend on the order in which the index
    holds its keys. *)
Theorem get_types_key_order (d1 d2 : dict) :
  Permutation (dict_keys d1) (dict_keys d2) ->
  get_types (JDict d1) = get_types (JDict d2).
Proof.
  intros P. simpl. rewrite !map_id. now apply sorted_str_perm_eq.
Qed.

Lemma get_types_key_order_witness :
  get_types (JDict [("Mob", JNull); ("Item", JNull)]) =
  get_types (JDict [("Item", JNull); ("Mob", JNull)]).
Proof.
  apply get_types_key_order. simpl. apply perm_swap.
Defined.

Lemma get_categories_nested (kvs data : dict) (type_name : string) :
  dict_lookup type_name kvs = Some (JDict data) ->
  existsb isinstance_dict (dict_values data) = true ->
  get_categories (JDict kvs) type_name = Ok (sorted_str (dict_keys data)).
Proof.
  intros Hl Hex.
  unfold get_categories. rewrite (is_nested_present _ _ _ Hl), Hex. simpl.
  rewrite Hl. simpl. now rewrite map_id.
Qed.

Lemma get_ids_item_falsy (kvs : dict) (category : option string) :
  _is_nested_item (JDict kvs) "Item" = Ok true ->
  falsy category = true ->
  get_ids (JDict kvs) "Item" category = Ok [].
Proof.
  intros Hn Hc.
  destruct (is_nested_true_inv _ _ Hn) as (kvs' & data & E & Hl & Hex).
  injection E as <-.
  unfold get_ids. simpl py_in. rewrite Hl. simpl. rewrite Hl. simpl.
  rewrite Hn. simpl. now rewrite Hc.
Qed.

(** For a nested type [get_categories] returns every key under the type,
    also a key whose value is not a mapping, in ascending code-point
    order. *)
Theorem get_categories_sorted_keys (kvs data : dict) (type_name : string) :
  dict_lookup type_name kvs = Some (JDict data) ->
  existsb isinstance_dict (dict_values data) = true ->
  exists cats,
    get_categories (JDict kvs) type_name = Ok cats /\
    Permutation cats (dict_keys data) /\
    StronglySorted (fun a b => PyStr.le a b = true) cats.
Proof.
  intros Hl Hex. exists (sorted_str (dict_keys data)).
  split; [|split].
  - now apply get_categories_nested.
  - apply sort_stable_perm.
  - apply sorted_str_le.
Qed.

Lemma get_categories_sorted_keys_witness :
  exists cats,
    get_categories
      (JDict [("Item", JDict [("Pet", JInt 3); ("Cash", JDict [])])]) "Item" = Ok cats /\
    Permutation cats ["Pet"; "Cash"] /\
    StronglySorted (fun a b => PyStr.le a b = true) cats.
Proof.
  apply (get_categories_sorted_keys
           [("Item", JDict [("Pet", JInt 3); ("Cash", JDict [])])]
           [("Pet", JInt 3); ("Cash", JDict [])] "Item"); reflexivity.
Defined.

(** Entries found for Item under a category come from a category that
    [get_categories] lists. *)
Theorem get_ids_category_listed (kvs d : dict) (c : string) :
  _is_nested_item (JDict kvs) "Item" = Ok true ->
  get_ids (JDict kvs) "Item" (Some c) = Ok d ->
  d <> [] ->
  exists cats, get_categories (JDict kvs) "Item" = Ok cats /\ In c cats.
Proof.
  intros Hn Hg Hd.
  destruct (is_nested_true_inv _ _ Hn) as (kvs' & data & E & Hl & Hex).
  injection E as <-.
  exists (sorted_str (dict_keys data)).
  split; [now apply get_categories_nested|].
  apply sort_stable_In.
  destruct (string_dec c EmptyString) as [->|Hne].
  - rewrite (get_ids_item_falsy _ (Some EmptyString) Hn) in Hg by reflexivity.
    congruence.
  - rewrite (get_ids_nested_item _ _ _ Hl Hex Hne) in Hg.
    destruct (dict_lookup c data) as [v|] eqn:Hv; [|congruence].
    now apply dict_lookup_Some_key in Hv.
Qed.

Lemma get_ids_category_listed_witness :
  exists cats, get_categories example_db "Item" = Ok cats /\ In "Cash" cats.
Proof.
  apply (get_ids_category_listed
           [("Item", JDict [("Cash", JDict [("1002186", JStr "cash/1002186.png")])]);
            ("Mob", JDict [("100100", JStr "mob/100100.png")])]
           [("1002186", JStr "cash/1002186.png")] "Cash");
    [reflexivity | reflexivity | discriminate].
Defined.

(* ================================================================== *)
(** * Further properties of the id list *)

(** ** The sort *)

Section StableSortMore.

Context {A : Type}.
Variable ltb : A -> A -> bool.

(** Sorting a list that is in order already gives the list back. *)
Lemma sort_stable_fixed (l : list A) :
  ascending ltb l -> sort_stable ltb l = l.
Proof.
  unfold ascending. induction 1 as [|x t Ht IH Hx]; simpl; [reflexivity|].
  rewrite IH. destruct t as [|y t']; simpl; [reflexivity|].
  inversion Hx as [|? ? Hy _]; subst. now rewrite Hy.
Qed.

(** Elements that the order does not tell apart keep their places
    relative to each other. *)
Lemma insert_stable_filter (p : A -> bool) (x : A) (l : list A) :
  (forall a b, p a = true -> p b = true -> ltb a b = false) ->
  filter p (insert_stable ltb x l) = filter p (x :: l).
Proof.
  intros Hp. induction l as [|y t IH]; [reflexivity|].
  cbn [insert_stable]. destruct (ltb y x) eqn:E; [|reflexivity].
  cbn [filter] in *. rewrite IH.
  destruct (p x) eqn:Px; [|reflexivity].
  destruct (p y) eqn:Py; [|reflexivity].
  rewrite (Hp y x Py Px) in E. discriminate.
Qed.

Lemma sort_stable_filter (p : A -> bool) (l : list A) :
  (forall a b, p a = true -> p b = true -> ltb a b = false) ->
  filter p (sort_stable ltb l) = filter p l.
Proof.
  intros Hp. induction l as [|x t IH]; [reflexivity|].
  cbn [sort_stable fold_right]. rewrite insert_stable_filter by exact Hp.
  cbn [filter]. fold (sort_stable ltb t). now rewrite IH.
Qed.

End StableSortMore.

Lemma key_lt_asym (a b : key) : key_lt a b = true -> key_lt b a = false.
Proof.
  destruct a, b; simpl; try congruence; [lia | apply str_lt_asym].
Qed.

Lemma key_lt_ntrans (a b c : key) :
  key_lt b a = false -> key_lt c b = false -> key_lt c a = false.
Proof.
  destruct a, b, c; simpl; try congruence; [lia | apply str_lt_ntrans].
Qed.

Lemma sort_key_cases (s : string) :
  ((PyStr.isdigit s = true -> PyStr.int_accepts s = true) /\
   sort_key s = Ok (key_of s)) \/
  (PyStr.isdigit s = true /\ PyStr.int_accepts s = false /\
   (sort_key s = Raise PyStr.invalid_literal \/
    sort_key s = Raise PyStr.exceeds_limit)).
Proof.
  destruct (PyStr.isdigit s) eqn:D.
  - destruct (PyStr.int_accepts s) eqn:A.
    + left. split; [reflexivity|]. apply sort_key_decimal. now rewrite A.
    + right. split; [reflexivity|]. split; [reflexivity|].
      unfold sort_key. rewrite D.
      destruct (int_rejected s A) as [E|E]; rewrite E; [now left | now right].
  - left. split; [discriminate|]. apply sort_key_decimal. now rewrite D.
Qed.

(** The sort either meets an id that passes [isdigit] and that [int]
    rejects, and raises the error of [int], or sorts the ids by their
    keys. *)
Lemma sort_ids_cases (ids : list string) :
  ((exists s, In s ids /\ PyStr.isdigit s = true /\ PyStr.int_accepts s = false) /\
   (sort_ids ids = Raise PyStr.invalid_literal \/
    sort_ids ids = Raise PyStr.exceeds_limit)) \/
  ((forall s, In s ids -> PyStr.isdigit s = true -> PyStr.int_accepts s = true) /\
   sort_ids ids = Ok (sort_stable id_lt ids)).
Proof.
  assert (H : ((exists s, In s ids /\ PyStr.isdigit s = true /\
                          PyStr.int_accepts s = false) /\
               (mapM (fun s => k <- sort_key s ;; Ok (k, s)) ids =
                  Raise PyStr.invalid_literal \/
                mapM (fun s => k <- sort_key s ;; Ok (k, s)) ids =
                  Raise PyStr.exceeds_limit)) \/
              (forall s, In s ids -> PyStr.isdigit s = true ->
                         PyStr.int_accepts s = true)).
  { induction ids as [|x t IH].
    - right. intros s [].
    - cbn [mapM].
      destruct (sort_key_cases x) as [[Hx E]|(D & N & [E|E])]; rewrite E; simpl.
      + destruct IH as [[(s & Hs & Hd) Hm]|Hall].
        * left. split; [exists s; split; [now right | exact Hd]|].
          destruct Hm as [Hm|Hm]; rewrite Hm; [now left | now right].
        * right. intros s [<-|Hs]; [exact Hx | now apply Hall].
      + left. split; [|now left]. exists x. split; [now left | now split].
      + left. split; [|now right]. exists x. split; [now left | now split]. }
  destruct H as [[Hbad Hm]|Hall].
  - left. split; [exact Hbad|]. unfold sort_ids.
    destruct Hm as [Hm|Hm]; rewrite Hm; [now left | now right].
  - right. split; [exact Hall | now apply sort_ids_by_key].
Qed.

Lemma sort_ids_Ok_inv (ids r : list string) :
  sort_ids ids = Ok r ->
  r = sort_stable id_lt ids /\
  (forall s, In s ids -> PyStr.isdigit s = true -> PyStr.int_accepts s = true).
Proof.
  intros H. destruct (sort_ids_cases ids) as [[_ [E|E]]|[Hall E]]; rewrite E in H.
  - discriminate.
  - discriminate.
  - injection H as <-. now split.
Qed.

Lemma sort_ids_perm (ids r : list string) :
  sort_ids ids = Ok r -> Permutation r ids.
Proof.
  intros H. apply sort_ids_Ok_inv in H. destruct H as [-> _].
  apply sort_stable_perm.
Qed.

(** [sort_ids] raises exactly when some id passes [isdigit] and is not
    converted by [int], because one of its characters is not a decimal
    digit or because it has more than 4300 characters; the exception is
    then one of the two [ValueError]s of [int].  Otherwise it returns a
    list. *)
Theorem sort_ids_raises_iff (ids : list string) :
  ((exists e, sort_ids ids = Raise e) <->
   exists s, In s ids /\ PyStr.isdigit s = true /\
             (PyStr.isdecimal s = false \/ 4300 < Z.of_nat (String.length s))) /\
  (forall e, sort_ids ids = Raise e ->
             e = PyStr.invalid_literal \/ e = PyStr.exceeds_limit) /\
  ((forall s, In s ids -> PyStr.isdigit s = true ->
              PyStr.isdecimal s = true /\ Z.of_nat (String.length s) <= 4300) ->
   exists r, sort_ids ids = Ok r).
Proof.
  destruct (sort_ids_cases ids) as [[(s & Hs & Hd & Hn) E]|[Hall E]].
  - split; [|split].
    + split.
      * intros _. exists s. split; [exact Hs|]. split; [exact Hd|].
        now apply int_accepts_false.
      * intros _. destruct E as [E|E]; rewrite E; eauto.
    + intros e H. destruct E as [E|E]; rewrite E in H; injection H as <-;
        [now left | now right].
    + intros Hall. exfalso.
      assert (PyStr.int_accepts s = true)
        by (apply int_accepts_spec; now apply Hall).
      congruence.
  - rewrite E. split; [|split].
    + split; [intros [e H]; discriminate|]. intros (s & Hs & Hd & Hn).
      apply int_accepts_false in Hn. rewrite (Hall s Hs Hd) in Hn. discriminate.
    + discriminate.
    + eauto.
Qed.

Lemma sort_ids_raises_iff_witness :
  (exists r, sort_ids ["10"; "x9"; "007"] = Ok r) /\
  (exists e, sort_ids ["10"; superscript_two] = Raise e).
Proof.
  split.
  - apply (proj2 (proj2 (sort_ids_raises_iff ["10"; "x9"; "007"]))).
    intros s [<-|[<-|[<-|[]]]]; intros H; try discriminate;
      (split; [reflexivity | simpl; lia]).
  - apply (proj2 (proj1 (sort_ids_raises_iff ["10"; superscript_two]))).
    exists superscript_two.
    split; [right; now left | split; [reflexivity | left; reflexivity]].
Defined.

(** An id of 4301 decimal digits passes [isdigit] and is rejected by
    [int] for its length. *)
Example sort_ids_long_id :
  PyStr.isdigit long_id = true /\
  PyStr.isdecimal long_id = true /\
  sort_ids ["10"; long_id] = Raise PyStr.exceeds_limit.
Proof. vm_compute. repeat split. Qed.

(** A sorted id list holds the ids it was given, each as often, and
    sorting it again changes nothing. *)
Theorem sort_ids_idempotent (ids r : list string) :
  sort_ids ids = Ok r ->
  Permutation r ids /\ sort_ids r = Ok r.
Proof.
  intros H. split; [now apply sort_ids_perm|].
  pose proof (sort_ids_perm _ _ H) as P.
  apply sort_ids_Ok_inv in H. destruct H as [-> Hall].
  rewrite sort_ids_by_key.
  - f_equal. apply sort_stable_fixed.
    apply sort_stable_ascending; unfold id_lt; intros.
    + now apply key_lt_asym.
    + now apply key_lt_ntrans with (key_of b).
  - intros s Hs. apply Hall. now apply (Permutation_in _ P).
Qed.

Lemma sort_ids_idempotent_witness :
  Permutation ["1"; "2"; "10"; "abc"] ["10"; "2"; "abc"; "1"] /\
  sort_ids ["1"; "2"; "10"; "abc"] = Ok ["1"; "2"; "10"; "abc"].
Proof.
  apply (sort_ids_idempotent ["10"; "2"; "abc"; "1"]). reflexivity.
Defined.

(** Numeric ids with the same integer value, such as 7 and 007, stay in
    the order in which the mapping holds them. *)
Theorem sort_ids_stable (ids r : list string) (n : Z) :
  sort_ids ids = Ok r ->
  filter (fun s => PyStr.isdigit s && (int_value s =? n)%Z) r =
  filter (fun s => PyStr.isdigit s && (int_value s =? n)%Z) ids.
Proof.
  intros H. apply sort_ids_Ok_inv in H. destruct H as [-> _].
  apply sort_stable_filter. intros a b Ha Hb.
  apply andb_true_iff in Ha, Hb. destruct Ha as [Da Va], Hb as [Db Vb].
  unfold id_lt, key_of. rewrite Da, Db. simpl.
  unfold int_value in *. lia.
Qed.

Lemma sort_ids_stable_witness :
  filter (fun s => PyStr.isdigit s && (int_value s =? 7)%Z) ["007"; "7"; "07"; "12"] =
  filter (fun s => PyStr.isdigit s && (int_value s =? 7)%Z) ["12"; "007"; "7"; "07"].
Proof.
  apply (sort_ids_stable ["12"; "007"; "7"; "07"] ["007"; "7"; "07"; "12"] 7).
  reflexivity.
Defined.

Lemma sort_ids_decimal_witness :
  exists nums others,
    sort_ids ["10"; "2"; "abc"; "1"] = Ok (nums ++ others) /\
    Permutation nums (filter PyStr.isdigit ["10"; "2"; "abc"; "1"]) /\
    Permutation others (filter non_numeric ["10"; "2"; "abc"; "1"]) /\
    StronglySorted (fun a b => (int_value a <= int_value b)%Z) nums /\
    StronglySorted (fun a b => PyStr.le a b = true) others.
Proof.
  apply (sort_ids_decimal ["10"; "2"; "abc"; "1"]).
  intros s [<-|[<-|[<-|[<-|[]]]]]; intros H; try discriminate;
    (split; [reflexivity | simpl; lia]).
Defined.

(** ** The filter *)

Lemma lstrip_blank (s : string) :
  PyStr.all_chars PyStr.is_space_char s = true -> PyStr.lstrip s = EmptyString.
Proof.
  induction s as [|c s IH]; simpl; [reflexivity|].
  intros H. apply andb_true_iff in H. destruct H as [Hc Hs].
  rewrite Hc. now apply IH.
Qed.

Lemma string_app_assoc (a b c : string) :
  ((a ++ b) ++ c = a ++ (b ++ c))%string.
Proof.
  induction a as [|x a IH]; simpl; [reflexivity|]. now rewrite IH.
Qed.

Lemma contains_trans (a b c : string) :
  PyStr.contains a b = true -> PyStr.contains b c = true ->
  PyStr.contains a c = true.
Proof.
  rewrite !contains_spec. intros (p & q & ->) (u & v & ->).
  exists (u ++ p)%string, (q ++ v)%string.
  now rewrite !string_app_assoc.
Qed.

Lemma filter_narrow {A : Type} (p q : A -> bool) (l : list A) :
  (forall x, q x = true -> p x = true) ->
  filter q (filter p l) = filter q l.
Proof.
  intros H. induction l as [|x t IH]; simpl; [reflexivity|].
  destruct (p x) eqn:Px; simpl.
  - now rewrite IH.
  - destruct (q x) eqn:Qx; [|exact IH].
    rewrite (H x Qx) in Px. discriminate.
Qed.

(** A filter entry that holds nothing but blanks, or nothing at all, leaves
    the list as it is. *)
Theorem filter_ids_whitespace (text : string) (ids : list string) :
  PyStr.all_chars PyStr.is_space_char text = true ->
  filter_ids text ids = ids.
Proof.
  intros H. unfold filter_ids, PyStr.strip. now rewrite lstrip_blank.
Qed.

Lemma filter_ids_whitespace_witness :
  filter_ids "   " ["100"; "200"; "Abc"] = ["100"; "200"; "Abc"].
Proof.
  apply filter_ids_whitespace. reflexivity.
Defined.

(** When the stripped text of one filter occurs in the stripped text of
    another, the second filter shows a part of what the first shows, and
    applying it to the list already filtered by the first gives the same
    list as applying it to all ids.  In particular filtering twice by the
    same text is filtering once. *)
Theorem filter_ids_narrow (text text' : string) (ids : list string) :
  PyStr.contains (PyStr.strip text) (PyStr.strip text') = true ->
  filter_ids text' (filter_ids text ids) = filter_ids text' ids /\
  incl (filter_ids text' ids) (filter_ids text ids).
Proof.
  intros H.
  assert (E : filter_ids text' (filter_ids text ids) = filter_ids text' ids).
  { rewrite !filter_ids_strip. apply filter_narrow.
    intros i Hi. now apply contains_trans with (PyStr.strip text'). }
  split; [exact E|].
  rewrite <- E. rewrite (filter_ids_strip text' (filter_ids text ids)).
  apply incl_filter.
Qed.

Lemma filter_ids_narrow_witness :
  filter_ids " 00" (filter_ids "0 " ["100"; "20"; "Abc"]) =
    filter_ids " 00" ["100"; "20"; "Abc"] /\
  incl (filter_ids " 00" ["100"; "20"; "Abc"]) (filter_ids "0 " ["100"; "20"; "Abc"]).
Proof.
  apply filter_ids_narrow. reflexivity.
Defined.

(** ** [refresh_id_list] *)

(** The application after a refresh: only the entries and the list box
    are new. *)
Lemma refresh_id_list_inv (a a' : app) :
  refresh_id_list a = Ok a' ->
  exists entries shown,
    a' = mkApp (icon_db a) (var_type a) (var_category a) (category_visible a)
               (var_filter a) entries shown /\
    ((entries = [] /\ shown = []) \/
     (exists sorted, sort_ids (dict_keys entries) = Ok sorted /\
                     shown = filter_ids (var_filter a) sorted)).
Proof.
  unfold refresh_id_list. cbn [_clear_ids var_type icon_db var_category
    category_visible var_filter].
  destruct (PyStr.nonempty (var_type a)); cbn [negb].
  - destruct (get_ids _ _ _) as [entries|e]; simpl; [|discriminate].
    destruct entries as [|kv es].
    + intros H. injection H as <-. exists [], []. split; [reflexivity | now left].
    + destruct (sort_ids (dict_keys (kv :: es))) as [sorted|e] eqn:Hs; simpl;
        [|discriminate].
      intros H. injection H as <-.
      exists (kv :: es), (filter_ids (var_filter a) sorted).
      split; [reflexivity|]. right. now exists sorted.
  - intros H. injection H as <-. exists [], []. split; [reflexivity | now left].
Qed.

(** [refresh_id_list] reads the index, the type, the category, its
    visibility and the filter, and nothing else. *)
Lemma refresh_id_list_ext (a b : app) :
  icon_db a = icon_db b -> var_type a = var_type b ->
  var_category a = var_category b -> category_visible a = category_visible b ->
  var_filter a = var_filter b ->
  refresh_id_list a = refresh_id_list b.
Proof.
  destruct a, b. simpl. intros -> -> -> -> ->. reflexivity.
Qed.

Lemma In_key_lookup (i : string) (d : dict) :
  In i (dict_keys d) -> exists v, dict_lookup i d = Some v.
Proof.
  intros H. destruct (dict_lookup i d) as [v|] eqn:E; [eauto|].
  apply dict_lookup_None_not_key in E. contradiction.
Qed.

(** A refresh leaves the index, the selected type and category and the
    filter text alone, and every id it lists is a key of the current
    entries in which the stripped filter text occurs: the lookup made when
    an id is selected finds its entry. *)
Theorem refresh_id_list_listed (a a' : app) :
  refresh_id_list a = Ok a' ->
  icon_db a' = icon_db a /\ var_type a' = var_type a /\
  var_category a' = var_category a /\
  category_visible a' = category_visible a /\
  var_filter a' = var_filter a /\
  forall i, In i (list_ids a') ->
            (exists v, dict_lookup i (current_entries a') = Some v) /\
            PyStr.contains (PyStr.strip (var_filter a)) i = true.
Proof.
  intros H. apply refresh_id_list_inv in H.
  destruct H as (entries & shown & -> & Hcase). simpl.
  repeat (split; [reflexivity|]).
  intros i Hi. destruct Hcase as [[-> ->]|(sorted & Hs & ->)]; [destruct Hi|].
  rewrite filter_ids_strip in Hi. apply filter_In in Hi. destruct Hi as [Hi Hc].
  split; [|exact Hc]. apply In_key_lookup.
  now apply (Permutation_in _ (sort_ids_perm _ _ Hs)).
Qed.

Lemma refresh_id_list_listed_witness :
  exists v, dict_lookup "100100" [("100100", JStr "mob/100100.png")] = Some v.
Proof.
  destruct (refresh_id_list_listed
              (app_with example_db "Mob" EmptyString false "00")
              (mkApp example_db "Mob" EmptyString false "00"
                     [("100100", JStr "mob/100100.png")] ["100100"]))
    as (_ & _ & _ & _ & _ & H); [reflexivity|].
  apply (H "100100"). now left.
Defined.

(** Refreshing twice is refreshing once. *)
Theorem refresh_id_list_idempotent (a a' : app) :
  refresh_id_list a = Ok a' -> refresh_id_list a' = Ok a'.
Proof.
  intros H. rewrite <- H.
  apply refresh_id_list_inv in H. destruct H as (entries & shown & -> & _).
  apply refresh_id_list_ext; reflexivity.
Qed.

Lemma refresh_id_list_idempotent_witness :
  refresh_id_list (mkApp example_db "Item" "Cash" true EmptyString
                         [("1002186", JStr "cash/1002186.png")] ["1002186"]) =
  Ok (mkApp example_db "Item" "Cash" true EmptyString
            [("1002186", JStr "cash/1002186.png")] ["1002186"]).
Proof.
  apply (refresh_id_list_idempotent
           (app_with example_db "Item" "Cash" true EmptyString)).
  reflexivity.
Defined.

(** With a blank filter the list shows every key of the current entries,
    each once per entry. *)
Theorem refresh_id_list_shows_all (a a' : app) :
  refresh_id_list a = Ok a' ->
  PyStr.all_chars PyStr.is_space_char (var_filter a) = true ->
  Permutation (list_ids a') (dict_keys (current_entries a')).
Proof.
  intros H Hb. apply refresh_id_list_inv in H.
  destruct H as (entries & shown & -> & Hcase). simpl.
  destruct Hcase as [[-> ->]|(sorted & Hs & ->)]; [constructor|].
  unfold filter_ids, PyStr.strip. rewrite lstrip_blank by exact Hb. simpl.
  now apply sort_ids_perm.
Qed.

Lemma refresh_id_list_shows_all_witness :
  Permutation ["100100"] (dict_keys [("100100", JStr "mob/100100.png")]).
Proof.
  apply (refresh_id_list_shows_all
           (app_with example_db "Mob" EmptyString false " ")
           (mkApp example_db "Mob" EmptyString false " "
                  [("100100", JStr "mob/100100.png")] ["100100"]));
    reflexivity.
Defined.

(** On an index, [refresh_id_list] raises exactly when a type is selected
    and the entries [get_ids] returns for the selected type and category
    have a key that passes [isdigit] and that [int] does not convert (a
    character that is no decimal digit, or more than 4300 characters); the
    exception is then one of the two [ValueError]s of [int]. *)
Theorem refresh_id_list_raises (a : app) (kvs : dict) :
  icon_db a = JDict kvs ->
  exists entries,
    get_ids (icon_db a) (var_type a)
            (if String.eqb (var_type a) "Item" && category_visible a
             then (if PyStr.nonempty (var_category a)
                   then Some (var_category a) else None)
             else None) = Ok entries /\
    ((exists e, refresh_id_list a = Raise e) <->
     PyStr.nonempty (var_type a) = true /\
     exists s, In s (dict_keys entries) /\ PyStr.isdigit s = true /\
               (PyStr.isdecimal s = false \/ 4300 < Z.of_nat (String.length s))) /\
    (forall e, refresh_id_list a = Raise e ->
               e = PyStr.invalid_literal \/ e = PyStr.exceeds_limit).
Proof.
  intros Hdb. rewrite Hdb.
  match goal with |- context [get_ids _ _ ?c] => set (cat := c) end.
  destruct (get_ids_total kvs (var_type a) cat) as [entries Hg].
  exists entries. split; [exact Hg|].
  unfold refresh_id_list.
  cbn [_clear_ids var_type icon_db var_category category_visible var_filter].
  fold cat. rewrite Hdb, Hg.
  destruct (PyStr.nonempty (var_type a)); cbn [negb bind].
  - destruct entries as [|kv es].
    + split; [|discriminate]. split; [intros [e H]; discriminate|].
      intros (_ & s & [] & _).
    + destruct (sort_ids_cases (dict_keys (kv :: es)))
        as [[(s & Hs & Hd & Hn) E]|[Hall E]].
      * split.
        -- split.
           ++ intros _. split; [reflexivity|]. exists s.
              split; [exact Hs|]. split; [exact Hd|]. now apply int_accepts_false.
           ++ intros _. destruct E as [E|E]; rewrite E; cbn [bind]; eauto.
        -- intros e H. destruct E as [E|E]; rewrite E in H; cbn [bind] in H;
             injection H as <-; [now left | now right].
      * rewrite E. cbn [bind]. split; [|discriminate].
        split; [intros [e H]; discriminate|].
        intros (_ & s & Hs & Hd & Hn). apply int_accepts_false in Hn.
        rewrite (Hall s Hs Hd) in Hn. discriminate.
  - split; [|discriminate]. split; [intros [e H]; discriminate|].
    intros [H _]. discriminate.
Qed.

Lemma refresh_id_list_raises_witness :
  exists entries,
    get_ids superscript_db "Mob" None = Ok entries /\
    ((exists e, refresh_id_list
                  (app_with superscript_db "Mob" EmptyString false EmptyString) = Raise e) <->
     PyStr.nonempty "Mob" = true /\
     exists s, In s (dict_keys entries) /\ PyStr.isdigit s = true /\
               (PyStr.isdecimal s = false \/ 4300 < Z.of_nat (String.length s))) /\
    (forall e, refresh_id_list
                 (app_with superscript_db "Mob" EmptyString false EmptyString) = Raise e ->
               e = PyStr.invalid_literal \/ e = PyStr.exceeds_limit).
Proof.
  apply (refresh_id_list_raises
           (app_with superscript_db "Mob" EmptyString false EmptyString)
           [("Mob", JDict [(superscript_two, JStr "mob/sq.png")])]).
  reflexivity.
Defined.

(* ================================================================== *)
(** * The handlers *)

Lemma get_categories_cases (kvs : dict) (t : string) :
  (_is_nested_item (JDict kvs) t = Ok true /\
   exists c0 rest, get_categories (JDict kvs) t = Ok (c0 :: rest)) \/
  (_is_nested_item (JDict kvs) t = Ok false /\
   get_categories (JDict kvs) t = Ok []).
Proof.
  destruct (is_nested_total kvs t) as [[|] Hn].
  - left. split; [exact Hn|].
    destruct (is_nested_true_inv _ _ Hn) as (kvs' & data & E & Hl & Hex).
    injection E as <-. rewrite (get_categories_nested _ _ _ Hl Hex).
    destruct (sorted_str (dict_keys data)) as [|c0 rest] eqn:Es; [|eauto].
    exfalso.
    pose proof (sort_stable_perm PyStr.lt (dict_keys data)) as P.
    fold (sorted_str (dict_keys data)) in P. rewrite Es in P.
    apply Permutation_nil in P. destruct data; [discriminate Hex | discriminate P].
  - right. split; [exact Hn|]. unfold get_categories. now rewrite Hn.
Qed.

Lemma existsb_eqb_In (x : string) (l : list string) :
  existsb (String.eqb x) l = true <-> In x l.
Proof.
  rewrite existsb_exists. split.
  - intros (y & Hy & E). apply String.eqb_eq in E. now subst.
  - intros H. exists x. split; [exact H | apply String.eqb_refl].
Qed.

(** What [_on_type_changed] does before it refreshes the list. *)
Lemma on_type_changed_inv (a a' : app) (kvs : dict) :
  icon_db a = JDict kvs ->
  PyStr.nonempty (var_type a) = true ->
  _on_type_changed a = Ok a' ->
  exists a1,
    refresh_id_list a1 = Ok a' /\
    icon_db a1 = icon_db a /\ var_type a1 = var_type a /\
    var_filter a1 = var_filter a /\
    ((var_type a = "Item" /\ _is_nested_item (icon_db a) "Item" = Ok true /\
      category_visible a1 = true /\
      exists c0 rest,
        get_categories (icon_db a) "Item" = Ok (c0 :: rest) /\
        In (var_category a1) (c0 :: rest) /\
        (In (var_category a) (c0 :: rest) -> var_category a1 = var_category a) /\
        (~ In (var_category a) (c0 :: rest) -> var_category a1 = c0)) \/
     ((var_type a <> "Item" \/ _is_nested_item (icon_db a) "Item" = Ok false) /\
      category_visible a1 = false /\ var_category a1 = EmptyString)).
Proof.
  intros Hdb Ht. unfold _on_type_changed. rewrite Ht. cbn [negb].
  destruct (String.eqb_spec (var_type a) "Item") as [E|E].
  - rewrite Hdb.
    destruct (get_categories_cases kvs "Item") as [(Hn & c0 & rest & Hc)|(Hn & Hc)];
      rewrite Hc; cbn [bind].
    + destruct (existsb (String.eqb (var_category a)) (c0 :: rest)) eqn:Hin;
        intros H; eexists; (split; [exact H|]); cbn [icon_db var_type var_filter category_visible var_category _show_category _hide_category set_category];
        (split; [exact Hdb|]); (split; [reflexivity|]); (split; [reflexivity|]);
        left; (split; [assumption|]); (split; [assumption|]); (split; [reflexivity|]);
        exists c0, rest; (split; [reflexivity|]).
      * apply existsb_eqb_In in Hin. split; [exact Hin|].
        split; [reflexivity | intros Hno; contradiction].
      * split; [now left|]. split; [|reflexivity].
        intros Hyes. apply existsb_eqb_In in Hyes. congruence.
    + intros H. eexists. split; [exact H|]. cbn [icon_db var_type var_filter category_visible var_category _show_category _hide_category set_category].
      split; [exact Hdb|]. split; [reflexivity|]. split; [reflexivity|].
      right. split; [now right|]. split; reflexivity.
  - cbn [bind]. intros H. eexists. split; [exact H|]. cbn [icon_db var_type var_filter category_visible var_category _show_category _hide_category set_category].
    split; [reflexivity|]. split; [reflexivity|]. split; [reflexivity|].
    right. split; [now left|]. split; reflexivity.
Qed.

Lemma on_type_changed_frame (a a' : app) :
  _on_type_changed a = Ok a' ->
  icon_db a' = icon_db a /\ var_type a' = var_type a /\ var_filter a' = var_filter a.
Proof.
  unfold _on_type_changed.
  destruct (PyStr.nonempty (var_type a)); cbn [negb].
  - match goal with
    | |- bind ?m _ = _ -> _ => destruct m as [a1|e] eqn:E1
    end; cbn [bind]; [|discriminate].
    intros H. apply refresh_id_list_inv in H.
    destruct H as (entries & shown & -> & _). simpl.
    assert (F : icon_db a1 = icon_db a /\ var_type a1 = var_type a /\
                var_filter a1 = var_filter a).
    { destruct (String.eqb (var_type a) "Item").
      - destruct (get_categories (icon_db a) "Item") as [cats|e]; cbn [bind] in E1;
          [|discriminate].
        destruct cats as [|c0 rest].
        + injection E1 as <-. now repeat split.
        + destruct (existsb _ _) in E1; injection E1 as <-; now repeat split.
      - injection E1 as <-. now repeat split. }
    exact F.
  - intros H. injection H as <-. now repeat split.
Qed.

(** After a type is selected in a loaded index, the category control is
    shown exactly when the type is Item and Item is nested.  It then holds
    a listed category: the one held before when that is still listed, the
    first one otherwise.  When the control is hidden the category is
    cleared.  The index, the type and the filter text stay as they
    were. *)
Theorem on_type_changed_category (a a' : app) (kvs : dict) :
  icon_db a = JDict kvs ->
  PyStr.nonempty (var_type a) = true ->
  _on_type_changed a = Ok a' ->
  icon_db a' = icon_db a /\ var_type a' = var_type a /\
  var_filter a' = var_filter a /\
  (category_visible a' = true <->
   var_type a = "Item" /\ _is_nested_item (icon_db a) "Item" = Ok true) /\
  (category_visible a' = true ->
   exists c0 rest,
     get_categories (icon_db a) "Item" = Ok (c0 :: rest) /\
     In (var_category a') (c0 :: rest) /\
     (In (var_category a) (c0 :: rest) -> var_category a' = var_category a) /\
     (~ In (var_category a) (c0 :: rest) -> var_category a' = c0)) /\
  (category_visible a' = false -> var_category a' = EmptyString).
Proof.
  intros Hdb Ht H.
  destruct (on_type_changed_inv _ _ _ Hdb Ht H)
    as (a1 & Hr & Hd1 & Ht1 & Hf1 & Hcase).
  apply refresh_id_list_inv in Hr. destruct Hr as (entries & shown & -> & _).
  simpl. repeat (split; [assumption|]).
  destruct Hcase as [(Hi & Hn & Hv & Hcats)|(Hno & Hv & Hc)]; rewrite Hv.
  - split; [|split].
    + split; [intros _; now split | reflexivity].
    + intros _. exact Hcats.
    + discriminate.
  - split; [|split].
    + split; [discriminate|]. intros [Hi Hn]. destruct Hno as [Hno|Hno]; congruence.
    + discriminate.
    + intros _. exact Hc.
Qed.

Lemma on_type_changed_category_witness :
  exists c0 rest,
    get_categories example_db "Item" = Ok (c0 :: rest) /\
    In "Cash" (c0 :: rest) /\
    (~ In "Etc" (c0 :: rest) -> "Cash" = c0).
Proof.
  destruct (on_type_changed_category
              (app_with example_db "Item" "Etc" false EmptyString)
              (mkApp example_db "Item" "Cash" true EmptyString
                     [("1002186", JStr "cash/1002186.png")] ["1002186"])
              [("Item", JDict [("Cash", JDict [("1002186", JStr "cash/1002186.png")])]);
               ("Mob", JDict [("100100", JStr "mob/100100.png")])])
    as (_ & _ & _ & _ & H & _); [reflexivity | reflexivity | reflexivity |].
  destruct (H eq_refl) as (c0 & rest & Hc & Hin & _ & Hfirst).
  exists c0, rest. split; [exact Hc|]. split; [exact Hin | exact Hfirst].
Defined.


(** Loading an index installs it and keeps the filter text.  An index
    without types leaves no type selected, the category hidden and the
    list empty; otherwise the type selected is the least key of the
    index. *)
Theorem load_json_first_type (a a' : app) (kvs : dict) :
  _load_json a (Parsed (JDict kvs)) = Ok a' ->
  icon_db a' = JDict kvs /\ var_filter a' = var_filter a /\
  (kvs = [] ->
   var_type a' = EmptyString /\ category_visible a' = false /\
   current_entries a' = [] /\ list_ids a' = []) /\
  (kvs <> [] ->
   In (var_type a') (dict_keys kvs) /\
   forall k, In k (dict_keys kvs) -> PyStr.le (var_type a') k = true).
Proof.
  unfold _load_json. cbn [load_icon_db isinstance_dict negb].
  pose proof (sort_stable_perm PyStr.lt (dict_keys kvs)) as P.
  pose proof (sorted_str_le (dict_keys kvs)) as S.
  cbn [get_types]. rewrite map_id. unfold sorted_str in *.
  destruct (sort_stable PyStr.lt (dict_keys kvs)) as [|t0 rest].
  - intros H. injection H as <-. simpl.
    repeat (split; [reflexivity|]). split; [now repeat split|].
    intros Hne. apply Permutation_nil in P. destruct kvs; [congruence | discriminate].
  - intros H. apply on_type_changed_frame in H. simpl in H.
    destruct H as (Hd & Ht & Hf). repeat (split; [assumption|]).
    split.
    + intros ->. apply Permutation_sym, Permutation_nil in P. discriminate.
    + intros _. rewrite Ht. split.
      * apply (Permutation_in _ P). now left.
      * intros k Hk. apply (Permutation_in _ (Permutation_sym P)) in Hk.
        apply StronglySorted_inv in S. destruct S as [_ Hall].
        rewrite Forall_forall in Hall.
        destruct Hk as [<-|Hk]; [|now apply Hall].
        unfold PyStr.le, String.leb.
        destruct (String.compare t0 t0) eqn:C; try reflexivity.
        pose proof (String.compare_antisym t0 t0) as A.
        rewrite C in A. discriminate A.
Qed.

Lemma load_json_first_type_witness :
  In "Item" (dict_keys [("Mob", JDict []); ("Item", JDict [])]) /\
  forall k, In k (dict_keys [("Mob", JDict []); ("Item", JDict [])]) ->
            PyStr.le "Item" k = true.
Proof.
  destruct (load_json_first_type initial_app
              (mkApp (JDict [("Mob", JDict []); ("Item", JDict [])])
                     "Item" EmptyString false EmptyString [] [])
              [("Mob", JDict []); ("Item", JDict [])])
    as (_ & _ & _ & H); [reflexivity|].
  apply H. discriminate.
Defined.

(* ================================================================== *)
(** * The subsample factor *)

(** The factor is the number of whole 512s in the larger dimension: an
    image whose dimensions are below 1024 is shown as it is, and the
    larger dimension of any image divided by the factor stays below
    1024. *)
Theorem subsample_factor_bounds (w h k : Z) :
  subsample_factor w h = Some k ->
  512 * k <= Z.max w h < 512 * (k + 1) /\
  (w < 1024 -> h < 1024 -> k = 1) /\
  Z.max w h / k < 1024.
Proof.
  intros H.
  destruct (Z_le_gt_dec w 512) as [Hw|Hw]; [destruct (Z_le_gt_dec h 512) as [Hh|Hh]|].
  - rewrite subsample_factor_small in H by assumption. discriminate.
  - rewrite subsample_factor_div in H by (now right). injection H as <-.
    assert (E : Z.max (w / 512) (h / 512) = h / 512).
    { assert (w / 512 <= h / 512) by (apply Z.div_le_mono; lia). lia. }
    rewrite E. replace (Z.max w h) with h by lia.
    assert (1 <= h / 512) by (apply Z.div_le_lower_bound; lia).
    split; [|split].
    + Z.div_mod_to_equations; lia.
    + intros _ Hlt. assert (h / 512 < 2) by (apply Z.div_lt_upper_bound; lia). lia.
    + apply Z.div_lt_upper_bound; [lia|]. Z.div_mod_to_equations; nia.
  - rewrite subsample_factor_div in H by (now left). injection H as <-.
    destruct (Z_le_gt_dec h w) as [Hhw|Hhw].
    + assert (E : Z.max (w / 512) (h / 512) = w / 512).
      { assert (h / 512 <= w / 512) by (apply Z.div_le_mono; lia). lia. }
      rewrite E. replace (Z.max w h) with w by lia.
      assert (1 <= w / 512) by (apply Z.div_le_lower_bound; lia).
      split; [|split].
      * Z.div_mod_to_equations; lia.
      * intros Hlt _. assert (w / 512 < 2) by (apply Z.div_lt_upper_bound; lia). lia.
      * apply Z.div_lt_upper_bound; [lia|]. Z.div_mod_to_equations; nia.
    + assert (E : Z.max (w / 512) (h / 512) = h / 512).
      { assert (w / 512 <= h / 512) by (apply Z.div_le_mono; lia). lia. }
      rewrite E. replace (Z.max w h) with h by lia.
      assert (1 <= h / 512) by (apply Z.div_le_lower_bound; lia).
      split; [|split].
      * Z.div_mod_to_equations; lia.
      * intros _ Hlt. assert (h / 512 < 2) by (apply Z.div_lt_upper_bound; lia). lia.
      * apply Z.div_lt_upper_bound; [lia|]. Z.div_mod_to_equations; nia.
Qed.

Lemma subsample_factor_bounds_witness :
  512 * 1 <= Z.max 1000 700 < 512 * (1 + 1) /\
  (1000 < 1024 -> 700 < 1024 -> 1 = 1) /\
  Z.max 1000 700 / 1 < 1024.
Proof.
  apply (subsample_factor_bounds 1000 700 1). reflexivity.
Defined.
